(** * thumbplan finger daemon: a shallow embedding of
      [thumbplanserver/finger_server.py] (the simplified variant) and
      [thumbplanserver/finger_server_win.py] (the standard finger form).

    Conventions of the embedding.
    - A Python [str] is a [string]: a sequence of 8-bit characters read as
      the code points U+0000..U+00FF.  [isspace_char] and [isdigit_char]
      are [str.isspace] and [str.isdigit] on that range.
    - Timestamps ([datetime.now().timestamp()], [st_mtime]) and the
      time-to-live [cache_time] are rationals ([Q]); the rounding of the
      floating-point subtraction is not modelled.
    - A [pathlib.Path] is represented by its [str]; the [/] operator of
      pathlib, [str(datetime.fromtimestamp(t))] and the codec are library
      code and are section variables.
    - [self.cache] is a [gmap] from [str(filepath)] to [(timestamp, content)].
    - Filesystem accesses are recorded in a list of [FsOp]. *)

From Stdlib Require Import ZArith NArith QArith Lqa Ascii String Strings.Byte List Bool
  DecimalString Permutation Sorting.Sorted.
From stdpp Require Import base option list strings gmap sorting.

Local Open Scope string_scope.
Local Open Scope list_scope.

(** ** Python string operations *)

Module PyStr.

(** The line feed, written ["\n"] in the source. *)
Definition nl : string := String "010"%char "".

(** [c.isspace()] for a code point below 256. *)
Definition isspace_char (c : ascii) : bool :=
  let n := N_of_ascii c in
  (((9 <=? n) && (n <=? 13)) || ((28 <=? n) && (n <=? 32))
   || (n =? 133) || (n =? 160))%N.

(** [c.isdigit()] for a code point below 256: the decimal digits and the
    superscripts U+00B2, U+00B3, U+00B9. *)
Definition isdigit_char (c : ascii) : bool :=
  let n := N_of_ascii c in
  (((48 <=? n) && (n <=? 57)) || (n =? 178) || (n =? 179) || (n =? 185))%N.

Fixpoint all_chars (f : ascii -> bool) (s : string) : bool :=
  match s with
  | "" => true
  | String c r => f c && all_chars f r
  end.

(** [s.isdigit()]: at least one character and all of them digits. *)
Definition isdigit (s : string) : bool :=
  match s with
  | "" => false
  | _ => all_chars isdigit_char s
  end.

Fixpoint lstrip (s : string) : string :=
  match s with
  | "" => ""
  | String c r => if isspace_char c then lstrip r else s
  end.

Fixpoint rstrip (s : string) : string :=
  match s with
  | "" => ""
  | String c r =>
      match rstrip r with
      | "" => if isspace_char c then "" else String c ""
      | r' => String c r'
      end
  end.

(** [s.strip()] *)
Definition strip (s : string) : string := rstrip (lstrip s).

(** [s.startswith(p)] *)
Definition startswith (p s : string) : bool := String.prefix p s.

(** [s.endswith(suffix)] *)
Fixpoint endswith (suffix s : string) : bool :=
  String.eqb s suffix ||
  match s with
  | "" => false
  | String _ r => endswith suffix r
  end.

(** [s[n:]] *)
Fixpoint drop (n : nat) (s : string) : string :=
  match n, s with
  | O, _ => s
  | S _, "" => ""
  | S n', String _ r => drop n' r
  end.

(** [c in s] for a one-character string [c]. *)
Fixpoint contains_char (c : ascii) (s : string) : bool :=
  match s with
  | "" => false
  | String d r => Ascii.eqb d c || contains_char c r
  end.

(** [sub in s] *)
Fixpoint contains (sub s : string) : bool :=
  String.prefix sub s ||
  match s with
  | "" => false
  | String _ r => contains sub r
  end.

(** [s.split(sep)] for a one-character separator: never empty. *)
Fixpoint split (sep : ascii) (s : string) : list string :=
  match s with
  | "" => [""]
  | String c r =>
      if Ascii.eqb c sep then "" :: split sep r
      else match split sep r with
           | h :: t => String c h :: t
           | [] => [String c ""]
           end
  end.

(** [s.split(sep, 1)]: at most one split, at the first separator. *)
Fixpoint split1 (sep : ascii) (s : string) : list string :=
  match s with
  | "" => [""]
  | String c r =>
      if Ascii.eqb c sep then [""; r]
      else match split1 sep r with
           | h :: t => String c h :: t
           | [] => [String c ""]
           end
  end.

(** [sep.join(l)] *)
Definition join (sep : string) (l : list string) : string :=
  String.concat sep l.

Fixpoint spaces (n : nat) : string :=
  match n with
  | O => ""
  | S n' => String " "%char (spaces n')
  end.

(** [f"{s:<w}"] *)
Definition ljust (w : nat) (s : string) : string :=
  s +:+ spaces (w - String.length s).

(** [f"{s:>w}"] *)
Definition rjust (w : nat) (s : string) : string :=
  spaces (w - String.length s) +:+ s.

(** [str(n)] for a non-negative integer. *)
Definition str_of_N (n : N) : string :=
  NilEmpty.string_of_uint (N.to_uint n).

(** [sorted(l)] on strings: ascending in the code-point order. *)
Definition sorted (l : list string) : list string :=
  merge_sort String.le l.

End PyStr.

Import PyStr.

(** ** Exceptions and results *)

(** An instance of [Exception], represented by its [str(e)].  Whatever the
    collaborators raise is an instance of [Exception]: the [except] clauses
    of the source catch that class. *)
Definition Exn := string.

Inductive Result (A : Type) : Type :=
| Ok (a : A)
| Raise (e : Exn).
Arguments Ok {A} a.
Arguments Raise {A} e.

#[global] Instance Result_ret : MRet Result := fun A a => Ok a.

#[global] Instance Result_bind : MBind Result := fun A B k m =>
  match m with
  | Ok a => k a
  | Raise e => Raise e
  end.

(** A [for] loop that appends one computed item per element and stops at the
    first exception. *)
Fixpoint for_each {A B : Type} (f : A -> Result B) (l : list A) : Result (list B) :=
  match l with
  | [] => Ok []
  | x :: r => y ← f x; ys ← for_each f r; Ok (y :: ys)
  end.

(** ** The filesystem, as the server observes it *)

(** What [filepath.exists()] and [filepath.read_text()] do at a path. *)
Inductive FileState : Type :=
| Missing                       (* exists() is False *)
| Regular (content : string)    (* exists() is True, read_text() returns *)
| Unreadable (e : Exn)          (* exists() is True, read_text() raises *)
| StatFails (e : Exn).          (* exists() itself raises *)

Record Stat : Type := { st_size : N; st_mtime : Q }.

(** One result of [plan_dir.glob("*")].  Of a directory the server looks at
    the names of its entries only ([year_dir.glob("*.project")]). *)
Inductive DirEntry : Type :=
| EntFile (name : string)
| EntDir (name : string) (entries : list string).

Record FileSystem : Type := {
  fs_file : string -> FileState;
  fs_stat : string -> Exn + Stat;     (* path.stat() *)
  fs_glob : string -> list DirEntry   (* Path(d).glob("*"), in OS order *)
}.

(** Accesses made by [_read_project_file]. *)
Inductive FsOp : Type :=
| OpExists (path : string)
| OpReadText (path : string).

(** ** The server object *)

Record FingerServer : Type := {
  plan_dir : string;
  cache : gmap string (Q * string);
  cache_time : Q
}.

Definition set_cache (c : gmap string (Q * string)) (self : FingerServer) :=
  {| plan_dir := plan_dir self; cache := c; cache_time := cache_time self |}.

(** [FingerServer.__init__] *)
Definition init (dir : string) : FingerServer :=
  {| plan_dir := dir; cache := ∅; cache_time := 300 |}.

(** Truth value of an [Optional[str]]: [None] and [""] are false. *)
Definition truthy (content : option string) : option string :=
  match content with
  | Some "" => None
  | other => other
  end.

(** [FingerServer._read_project_file], the same in both files; [now] is the
    value of [datetime.datetime.now().timestamp()] at the call. *)
Definition _read_project_file (fs : FileSystem) (now : Q) (self : FingerServer)
    (filepath : string) : option string * FingerServer * list FsOp :=
  let cache_key := filepath in
  let hit :=
    match cache self !! cache_key with
    | Some (timestamp, content) =>
        if Qlt_le_dec (now - timestamp) (cache_time self) then Some content
        else None
    | None => None
    end in
  match hit with
  | Some content => (Some content, self, [])
  | None =>
      match fs_file fs filepath with
      | Missing => (None, self, [OpExists filepath])
      | StatFails _ => (None, self, [OpExists filepath])
      | Unreadable _ =>
          (None, self, [OpExists filepath; OpReadText filepath])
      | Regular content =>
          (Some content,
           set_cache (<[cache_key := (now, content)]> (cache self)) self,
           [OpExists filepath; OpReadText filepath])
      end
  end.

(** The projects of one result of [plan_dir.glob("*")]. *)
Definition year_projects (year_dir : DirEntry) : list string :=
  match year_dir with
  | EntDir name entries =>
      if isdigit name
      then map (fun project_file => name +:+ "/" +:+ project_file)
               (List.filter (endswith ".project") entries)
      else []
  | EntFile _ => []
  end.

(** [FingerServer._list_projects], the same in both files. *)
Definition _list_projects (fs : FileSystem) (self : FingerServer) : list string :=
  sorted (flat_map year_projects (fs_glob fs (plan_dir self))).

(** The parsed request of the specification. *)
Inductive Reason : Type := TooManyAt | BadSelector.

Inductive Request : Type :=
| ListAll
| ListAllDetailed
| FetchOne (year project : string)
| FetchOneDetailed (year project : string)
| Invalid (why : Reason).

(** ** [finger_server.py]: the simplified variant *)

Module Simple.
Section WithLibrary.

(** [a / b] of pathlib, on the [str] of the paths. *)
Variable joinpath : string -> string -> string.

Definition invalid_text : string :=
  "Invalid request. Use: finger @hostname or finger user@hostname" +:+ nl.

(** [FingerServer.process_request] *)
Definition process_request (fs : FileSystem) (now : Q) (self : FingerServer)
    (request : string) : string * FingerServer :=
  let request := strip request in
  if String.eqb request "" then
    let projects := _list_projects fs self in
    ("Available projects:" +:+ nl +:+ join nl projects +:+ nl, self)
  else
    let parts := split "/" request in
    match parts with
    | [year; project] =>
        if isdigit year then
          let project_path := joinpath (joinpath (plan_dir self) year) project in
          let '(content, self', _) := _read_project_file fs now self project_path in
          match truthy content with
          | Some content =>
              ("Project: " +:+ project +:+ nl +:+ nl +:+ content +:+ nl, self')
          | None =>
              ("Project " +:+ project +:+ " not found in year " +:+ year +:+ nl,
               self')
          end
        else (invalid_text, self)
    | _ => (invalid_text, self)
    end.

(** The branch of [process_request] a request takes, as a [Request]. *)
Definition parse (request : string) : Request :=
  let request := strip request in
  if String.eqb request "" then ListAll
  else match split "/" request with
       | [year; project] =>
           if isdigit year then FetchOne year project else Invalid BadSelector
       | _ => Invalid BadSelector
       end.

(** The answer to a parsed request: the bodies of the branches of
    [process_request]. *)
Definition respond (fs : FileSystem) (now : Q) (self : FingerServer)
    (r : Request) : string * FingerServer :=
  match r with
  | ListAll =>
      ("Available projects:" +:+ nl +:+ join nl (_list_projects fs self) +:+ nl,
       self)
  | FetchOne year project =>
      let project_path := joinpath (joinpath (plan_dir self) year) project in
      let '(content, self', _) := _read_project_file fs now self project_path in
      match truthy content with
      | Some content =>
          ("Project: " +:+ project +:+ nl +:+ nl +:+ content +:+ nl, self')
      | None =>
          ("Project " +:+ project +:+ " not found in year " +:+ year +:+ nl,
           self')
      end
  | _ => (invalid_text, self)
  end.

End WithLibrary.
End Simple.

(** ** [finger_server_win.py]: the standard finger form *)

Module Win.
Section WithLibrary.

Variable joinpath : string -> string -> string.
(** [str(datetime.datetime.fromtimestamp(t))], or the exception it raises. *)
Variable fromtimestamp : Q -> Exn + string.

Definition invalid_format_text : string :=
  "Invalid request format. Use: finger [-l] [user]@host" +:+ nl.

Definition usage_text : string :=
  "Usage: finger [-l] [year/project]@host" +:+ nl +:+ "Examples:" +:+ nl +:+
  "  finger @host              - List all projects" +:+ nl +:+
  "  finger -l @host           - List all projects with details" +:+ nl +:+
  "  finger 2025/proj@host     - View specific project" +:+ nl +:+
  "  finger -l 2025/proj@host  - View project with details" +:+ nl.

(** One turn of the loop over [projects] in the detailed listing;
    [year, name = proj.split("/")] raises [ValueError] unless the split has
    two parts. *)
Definition detail_line (fs : FileSystem) (self : FingerServer) (proj : string)
    : Result string :=
  match split "/" proj with
  | [year; name] =>
      let path := joinpath (joinpath (plan_dir self) year) name in
      let failed e :=
        ljust 30 proj +:+ " (error reading file: " +:+ e +:+ ")" in
      Ok match fs_stat fs path with
         | inr stats =>
             match fromtimestamp (st_mtime stats) with
             | inr modified =>
                 ljust 30 proj +:+ " " +:+ rjust 8 (str_of_N (st_size stats))
                 +:+ " bytes  " +:+ modified
             | inl e => failed e
             end
         | inl e => failed e
         end
  | [_] => Raise "not enough values to unpack (expected 2, got 1)"
  | _ => Raise "too many values to unpack (expected 2)"
  end.

(** The answer to a detailed fetch whose content was read. *)
Definition detailed_project (fs : FileSystem) (project_path year project
    content : string) : string :=
  let failed e :=
    "Error reading project metadata: " +:+ e +:+ nl +:+ nl +:+ content +:+ nl in
  match fs_stat fs project_path with
  | inr stats =>
      match fromtimestamp (st_mtime stats) with
      | inr modified =>
          ("Project: " +:+ project +:+ nl +:+
           "Location: " +:+ year +:+ "/" +:+ project +:+ nl +:+
           "Size: " +:+ str_of_N (st_size stats) +:+ " bytes" +:+ nl +:+
           "Modified: " +:+ modified +:+ nl +:+
           nl +:+ "Content:" +:+ nl) +:+ content +:+ nl
      | inl e => failed e
      end
  | inl e => failed e
  end.

(** [FingerServer.process_request] *)
Definition process_request (fs : FileSystem) (now : Q) (self : FingerServer)
    (request : string) : Result string * FingerServer :=
  let request := strip request in
  let '(is_long_format, request) :=
    if startswith "-l " request then (true, strip (drop 3 request))
    else (false, request) in
  if contains_char "@" request then
    let parts := split "@" request in
    if negb (Nat.eqb (List.length parts) 2) then (Ok invalid_format_text, self)
    else
      let user := strip (List.nth 0 parts "") in
      if String.eqb user "" then
        let projects := _list_projects fs self in
        let header :=
          if is_long_format then "Project listing (detailed):" +:+ nl
          else "Available projects:" +:+ nl in
        if is_long_format then
          (project_details ← for_each (detail_line fs self) projects;
           Ok (header +:+ join nl project_details +:+ nl), self)
        else (Ok (header +:+ join nl projects +:+ nl), self)
      else if contains_char "/" user then
        match split1 "/" user with
        | [year; project] =>
            if isdigit year then
              let project_path :=
                joinpath (joinpath (plan_dir self) year) project in
              let '(content, self', _) :=
                _read_project_file fs now self project_path in
              match truthy content with
              | Some content =>
                  if is_long_format
                  then (Ok (detailed_project fs project_path year project content),
                        self')
                  else (Ok ("Project: " +:+ project +:+ nl +:+ nl +:+ content
                            +:+ nl), self')
              | None =>
                  (Ok ("Project " +:+ project +:+ " not found in year " +:+ year
                       +:+ nl), self')
              end
            else (Ok usage_text, self)
        | [_] => (Raise "not enough values to unpack (expected 2, got 1)", self)
        | _ => (Raise "too many values to unpack (expected 2)", self)
        end
      else (Ok usage_text, self)
  else (Ok usage_text, self).

(** The branch of [process_request] a request takes, as a [Request]. *)
Definition parse (request : string) : Request :=
  let request := strip request in
  let '(is_long_format, request) :=
    if startswith "-l " request then (true, strip (drop 3 request))
    else (false, request) in
  if contains_char "@" request then
    let parts := split "@" request in
    if negb (Nat.eqb (List.length parts) 2) then Invalid TooManyAt
    else
      let user := strip (List.nth 0 parts "") in
      if String.eqb user "" then
        if is_long_format then ListAllDetailed else ListAll
      else if contains_char "/" user then
        match split1 "/" user with
        | [year; project] =>
            if isdigit year then
              if is_long_format then FetchOneDetailed year project
              else FetchOne year project
            else Invalid BadSelector
        | _ => Invalid BadSelector
        end
      else Invalid BadSelector
  else Invalid BadSelector.

(** The answer to a parsed request: the bodies of the branches of
    [process_request]. *)
Definition respond (fs : FileSystem) (now : Q) (self : FingerServer)
    (r : Request) : Result string * FingerServer :=
  let fetch (is_long_format : bool) year project :=
    let project_path := joinpath (joinpath (plan_dir self) year) project in
    let '(content, self', _) := _read_project_file fs now self project_path in
    match truthy content with
    | Some content =>
        if is_long_format
        then (Ok (detailed_project fs project_path year project content), self')
        else (Ok ("Project: " +:+ project +:+ nl +:+ nl +:+ content +:+ nl),
              self')
    | None =>
        (Ok ("Project " +:+ project +:+ " not found in year " +:+ year +:+ nl),
         self')
    end in
  match r with
  | ListAll =>
      (Ok ("Available projects:" +:+ nl +:+ join nl (_list_projects fs self)
           +:+ nl), self)
  | ListAllDetailed =>
      (project_details ← for_each (detail_line fs self) (_list_projects fs self);
       Ok (("Project listing (detailed):" +:+ nl) +:+ join nl project_details
           +:+ nl), self)
  | FetchOne year project => fetch false year project
  | FetchOneDetailed year project => fetch true year project
  | Invalid TooManyAt => (Ok invalid_format_text, self)
  | Invalid BadSelector => (Ok usage_text, self)
  end.

End WithLibrary.
End Win.

(** ** [FingerServer.handle_client], the same in both files *)

Module Connection.

(** The lines the handler prints. *)
Inductive LogLine : Type :=
| Received (message addr : string)
| ErrorHandlingClient (e : Exn).

(** What the handler does to its reader, its writer and the console. *)
Inductive Event : Type :=
| EvRead (limit : nat)
| EvGetExtraInfo (key : string)
| EvPrint (line : LogLine)
| EvWrite (data : list Byte.byte)
| EvDrain
| EvClose
| EvWaitClosed.

(** An [asyncio.StreamReader], by what [read] answers. *)
Record StreamReader : Type := { read : nat -> Result (list Byte.byte) }.

(** An [asyncio.StreamWriter], by what its methods answer. *)
Record StreamWriter : Type := {
  get_extra_info : string -> Result string;   (* the repr of the answer *)
  write : list Byte.byte -> Result unit;
  drain : Result unit;
  close : Result unit;
  wait_closed : Result unit
}.

Section Handler.

Context {Server : Type}.
(** [bytes.decode()] and [str.encode()] *)
Variable decode : list Byte.byte -> Result string.
Variable encode : string -> list Byte.byte.
(** [self.process_request] *)
Variable process_request : string -> Server -> Result string * Server.

(** Computations over the server object and the trace of events. *)
Definition IO (A : Type) : Type :=
  Server * list Event -> Result A * (Server * list Event).

#[local] Instance IO_ret : MRet IO := fun A a w => (Ok a, w).

#[local] Instance IO_bind : MBind IO := fun A B k m w =>
  match m w with
  | (Ok a, w') => k a w'
  | (Raise e, w') => (Raise e, w')
  end.

Definition emit (ev : Event) : IO unit :=
  fun w => (Ok tt, (w.1, w.2 ++ [ev])).

Definition lift {A : Type} (r : Result A) : IO A := fun w => (r, w).

(** A call on a collaborator: recorded, then answered. *)
Definition call {A : Type} (ev : Event) (r : Result A) : IO A :=
  _ ← emit ev; lift r.

Definition process (message : string) : IO string :=
  fun w => let '(r, self') := process_request message w.1 in (r, (self', w.2)).

(** [try: body except Exception as e: handler(e)] *)
Definition try_except (body : IO unit) (handler : Exn -> IO unit) : IO unit :=
  fun w =>
    match body w with
    | (Ok _, w') => (Ok tt, w')
    | (Raise e, w') => handler e w'
    end.

(** [try: body finally: final]: an exception of [body] is raised again
    after [final], unless [final] raises one of its own. *)
Definition try_finally (body final : IO unit) : IO unit :=
  fun w =>
    match body w with
    | (Ok _, w') => final w'
    | (Raise e, w') =>
        match final w' with
        | (Ok _, w'') => (Raise e, w'')
        | (Raise e', w'') => (Raise e', w'')
        end
    end.

Definition handle_client (reader : StreamReader) (writer : StreamWriter)
    : IO unit :=
  try_finally
    (try_except
       (data ← call (EvRead 1024) (read reader 1024);
        message ← lift (decode data);
        let message := strip message in
        addr ← call (EvGetExtraInfo "peername") (get_extra_info writer "peername");
        _ ← emit (EvPrint (Received message addr));
        response ← process message;
        _ ← call (EvWrite (encode response)) (write writer (encode response));
        call EvDrain (drain writer))
       (fun e => emit (EvPrint (ErrorHandlingClient e))))
    (_ ← call EvClose (close writer);
     call EvWaitClosed (wait_closed writer)).

(** Running the handler on a fresh trace. *)
Definition run (reader : StreamReader) (writer : StreamWriter) (self : Server)
    : Result unit * (Server * list Event) :=
  handle_client reader writer (self, []).

End Handler.

Definition is_close (ev : Event) : bool :=
  match ev with EvClose => true | _ => false end.

Definition is_write (ev : Event) : bool :=
  match ev with EvWrite _ => true | _ => false end.

Definition closes (trace : list Event) : nat :=
  List.length (List.filter is_close trace).

Definition writes (trace : list Event) : nat :=
  List.length (List.filter is_write trace).

Definition failed {A : Type} (r : Result A) : Prop :=
  match r with Ok _ => False | Raise _ => True end.

End Connection.

(** ** Vocabulary of the properties *)

(** The disk read of [_read_project_file] fails at this file. *)
Definition read_fails (s : FileState) : Prop :=
  match s with
  | Regular _ => False
  | _ => True
  end.

(** No entry of [filepath] is fresh at [now]: the call goes to the disk. *)
Definition no_fresh_entry (now : Q) (self : FingerServer) (filepath : string)
    : Prop :=
  match cache self !! filepath with
  | Some (timestamp, _) => (cache_time self <= now - timestamp)%Q
  | None => True
  end.

(** A sequence of calls, each with the filesystem and the clock it meets. *)
Record Call : Type := { call_fs : FileSystem; call_now : Q; call_path : string }.

Definition do_call (self : FingerServer) (c : Call)
    : option string * FingerServer * list FsOp :=
  _read_project_file (call_fs c) (call_now c) self (call_path c).

Fixpoint run_calls (self : FingerServer) (cs : list Call)
    : list (Call * option string * list FsOp) :=
  match cs with
  | [] => []
  | c :: rest =>
      let '(r, self', ops) := do_call self c in
      (c, r, ops) :: run_calls self' rest
  end.

(** What a later call on [filepath] meets: a clock that has not gone back and,
    at that path, a read that fails again. *)
Definition still_failing (now : Q) (filepath : string) (c : Call) : Prop :=
  (now <= call_now c)%Q /\
  (call_path c = filepath -> read_fails (fs_file (call_fs c) filepath)).

(** What such a call must do: answer [None] after going to the disk. *)
Definition reattempts (filepath : string)
    (outcome : Call * option string * list FsOp) : Prop :=
  let '(c, r, ops) := outcome in
  call_path c = filepath -> r = None /\ exists ops', ops = OpExists filepath :: ops'.

(** No entry of a year directory has a [/] in its name (on a real
    filesystem none has). *)
Definition names_without_slash (fs : FileSystem) (self : FingerServer) : bool :=
  forallb (fun year_dir =>
             match year_dir with
             | EntDir _ entries =>
                 forallb (fun name => negb (contains_char "/" name)) entries
             | EntFile _ => true
             end)
          (fs_glob fs (plan_dir self)).

(** The answers to a fetch of [project] in [year], not detailed. *)
Definition found_text (project content : string) : string :=
  "Project: " +:+ project +:+ nl +:+ nl +:+ content +:+ nl.

Definition not_found_text (year project : string) : string :=
  "Project " +:+ project +:+ " not found in year " +:+ year +:+ nl.

(** The answer to a listing, not detailed. *)
Definition listing_text (projects : list string) : string :=
  "Available projects:" +:+ nl +:+ join nl projects +:+ nl.

(** What a fetch answers, by where the content comes from: a fresh entry of
    the cache, else the disk. *)
Definition fetch_one_answers (fs : FileSystem) (now : Q) (self : FingerServer)
    (project_path year project response : string) : Prop :=
  (forall timestamp content,
     cache self !! project_path = Some (timestamp, content) ->
     (now - timestamp < cache_time self)%Q ->
     content <> "" ->
     response = found_text project content) /\
  (forall content,
     no_fresh_entry now self project_path ->
     fs_file fs project_path = Regular content ->
     content <> "" ->
     response = found_text project content) /\
  (no_fresh_entry now self project_path ->
   read_fails (fs_file fs project_path) ->
   response = not_found_text year project).

(** ** Sample data: the fixture of [tests/unit/test_server.py] *)

Module Sample.

Definition joinpath (a b : string) : string := a +:+ "/" +:+ b.

Definition fromtimestamp (t : Q) : Exn + string := inr "2025-01-01 00:00:00".

Definition test_project : string := "plans/2025/test.project".

Definition root : list DirEntry :=
  [EntDir "2025" ["test.project"; "notes.txt"]; EntFile "README";
   EntDir "drafts" ["x.project"]; EntDir "2024" ["b.project"; "a.project"]].

(** The disk holding [content] in the test project ([None]: no file). *)
Definition disk (content : option string) : FileSystem :=
  {| fs_file p :=
       if String.eqb p test_project
       then match content with Some c => Regular c | None => Missing end
       else Missing;
     fs_stat p :=
       if String.eqb p test_project
       then inr {| st_size := 20; st_mtime := 0 |}
       else inl "[Errno 2] No such file or directory";
     fs_glob d := if String.eqb d "plans" then root else [] |}.

(** The disk after the test rewrote the file, and after it is removed. *)
Definition updated : FileSystem := disk (Some "Updated content").
Definition removed : FileSystem := disk None.

Definition server : FingerServer := init "plans".

(** The server after it read ["Test project content"] at time 100. *)
Definition warm : FingerServer :=
  set_cache {[ test_project := (100%Q, "Test project content") ]} server.

(** The codec, on ASCII data. *)
Definition decode (data : list Byte.byte) : Result string :=
  Ok (string_of_list_byte data).

Definition encode (text : string) : list Byte.byte := list_byte_of_string text.

(** The mocks of [test_handle_client_error] and [test_handle_client]. *)
Definition broken_reader : Connection.StreamReader :=
  {| Connection.read _ := Raise "ConnectionError" |}.

Definition reader (data : string) : Connection.StreamReader :=
  {| Connection.read _ := Ok (list_byte_of_string data) |}.

Definition writer : Connection.StreamWriter :=
  {| Connection.get_extra_info _ := Ok "('127.0.0.1', 12345)";
     Connection.write _ := Ok tt;
     Connection.drain := Ok tt;
     Connection.close := Ok tt;
     Connection.wait_closed := Ok tt |}.

(** A writer whose connection was reset: [wait_closed] raises. *)
Definition resetting_writer : Connection.StreamWriter :=
  {| Connection.get_extra_info _ := Ok "('127.0.0.1', 12345)";
     Connection.write _ := Ok tt;
     Connection.drain := Ok tt;
     Connection.close := Ok tt;
     Connection.wait_closed := Raise "ConnectionResetError" |}.

(** [self.process_request] of the simplified variant, which raises nothing. *)
Definition process_request (fs : FileSystem) (now : Q) (message : string)
    (self : FingerServer) : Result string * FingerServer :=
  let '(response, self') := Simple.process_request joinpath fs now self message in
  (Ok response, self').

End Sample.

(** ** [plancli/finger_client.py] *)

Module Client.

(** The exceptions [query_finger_server] tells apart. *)
Inductive SocketError : Type :=
| ConnectionRefusedError
| gaierror
| OtherError (e : Exn).   (* another instance of [Exception], by its [str] *)

Inductive Try (A : Type) : Type :=
| Returns (a : A)
| Raises (err : SocketError).
Arguments Returns {A} a.
Arguments Raises {A} err.

(** A socket, by what its methods answer.  [recv_script] holds the answers
    of the successive [recv] calls; when it runs out, [recv] raises, as the
    mocks of [tests/unit/test_client.py] do. *)
Record Socket : Type := {
  create : Try unit;                    (* socket.socket(...) and __enter__ *)
  connect : string -> N -> Try unit;
  send : list Byte.byte -> Try unit;
  recv_script : list (Try (list Byte.byte))
}.

Inductive LogLevel : Type := DEBUG | ERROR.

Inductive Event : Type :=
| EvCreate
| EvConnect (host : string) (port : N)
| EvSend (data : list Byte.byte)
| EvRecv (bufsize : nat)
| EvCloseSocket
| EvLog (level : LogLevel) (message : string).

(** The value of [query] that is sent: [f"-l {query}"] in long format, then
    [f"{query}@{host}\r\n"]. *)
Definition wire_query (host query : string) (long_format : bool) : string :=
  let query := if long_format then "-l " +:+ query else query in
  query +:+ "@" +:+ host +:+ String "013"%char nl.

(** The [while True] loop over [s.recv(4096)]: the chunks up to the first
    empty one, or the exception, and the events of the calls made. *)
Fixpoint recv_loop (script : list (Try (list Byte.byte)))
    (chunks : list (list Byte.byte)) : Try (list (list Byte.byte)) * list Event :=
  match script with
  | [] => (Raises (OtherError "StopIteration"), [EvRecv 4096])
  | Raises err :: _ => (Raises err, [EvRecv 4096])
  | Returns [] :: _ => (Returns chunks, [EvRecv 4096])
  | Returns chunk :: rest =>
      let '(r, events) := recv_loop rest (chunks ++ [chunk]) in
      (r, EvRecv 4096 :: events)
  end.

(** The three [except] clauses. *)
Definition log_failure (host : string) (port : N) (err : SocketError)
    : list Event :=
  match err with
  | ConnectionRefusedError =>
      [EvLog ERROR ("Connection refused to " +:+ host +:+ ":" +:+ str_of_N port);
       EvLog ERROR
         "Make sure the finger server is running and the port is correct"]
  | gaierror => [EvLog ERROR ("Could not resolve hostname " +:+ host)]
  | OtherError e => [EvLog ERROR ("Error querying finger server: " +:+ e)]
  end.

Section WithCodec.

Variable decode : list Byte.byte -> Result string.
Variable encode : string -> list Byte.byte.

(** The body of the [with] statement. *)
Definition exchange (host query : string) (port : N) (long_format : bool)
    (s : Socket) : Try string * list Event :=
  match connect s host port with
  | Raises err => (Raises err, [EvConnect host port])
  | Returns _ =>
      let data := encode (wire_query host query long_format) in
      match send s data with
      | Raises err => (Raises err, [EvConnect host port; EvSend data])
      | Returns _ =>
          let '(received, events) := recv_loop (recv_script s) [] in
          let result :=
            match received with
            | Raises err => Raises err
            | Returns chunks =>
                match decode (List.concat chunks) with
                | Ok text => Returns text
                | Raise e => Raises (OtherError e)
                end
            end in
          (result, EvConnect host port :: EvSend data :: events)
      end
  end.

(** [query_finger_server] *)
Definition query_finger_server (host query : string) (port : N)
    (long_format : bool) (s : Socket) : option string * list Event :=
  match create s with
  | Raises err => (None, EvCreate :: log_failure host port err)
  | Returns _ =>
      match exchange host query port long_format s with
      | (Returns text, events) =>
          (Some text, EvCreate :: events ++ [EvCloseSocket])
      | (Raises err, events) =>
          (None, EvCreate :: events ++ [EvCloseSocket] ++ log_failure host port err)
      end
  end.

(** The namespace [parser.parse_args()] returns. *)
Record Args : Type := {
  host : string;
  query : string;
  long : bool;
  port : N;
  verbose : bool
}.

(** [main], from the parsed arguments on: the exit code, what is written to
    [sys.stdout], and the events (debug lines are among them when
    [--verbose] set the level to [DEBUG]). *)
Definition main (args : Args) (s : Socket) : Z * list string * list Event :=
  let debug message := if verbose args then [EvLog DEBUG message] else [] in
  let started :=
    debug ("Connecting to " +:+ host args +:+ ":" +:+ str_of_N (port args)) ++
    (if String.eqb (query args) "" then []
     else debug ("Query: " +:+ query args)) in
  let '(response, events) :=
    query_finger_server (host args) (query args) (port args) (long args) s in
  match truthy response with
  | Some response => (0%Z, [rstrip response +:+ nl], started ++ events)
  | None => (1%Z, [], started ++ events)
  end.

End WithCodec.

Definition is_close (ev : Event) : bool :=
  match ev with EvCloseSocket => true | _ => false end.

Definition is_error (ev : Event) : bool :=
  match ev with EvLog ERROR _ => true | _ => false end.

Definition is_recv (ev : Event) : bool :=
  match ev with EvRecv _ => true | _ => false end.

Definition count (f : Event -> bool) (events : list Event) : nat :=
  List.length (List.filter f events).

End Client.

(** ** More vocabulary *)

(** The server after a sequence of calls of [_read_project_file]. *)
Fixpoint after_calls (self : FingerServer) (cs : list Call) : FingerServer :=
  match cs with
  | [] => self
  | c :: rest => after_calls (do_call self c).1.2 rest
  end.

(** An entry of the cache holds what a call of the history read. *)
Definition read_by (history : list Call) (filepath : string) (entry : Q * string)
    : Prop :=
  exists c, In c history /\ call_path c = filepath /\ call_now c = entry.1 /\
            fs_file (call_fs c) filepath = Regular entry.2.

Definition entry_name (e : DirEntry) : string :=
  match e with
  | EntFile name => name
  | EntDir name _ => name
  end.

(** The names of the root are distinct, and so are those of each year. *)
Definition distinct_names (root : list DirEntry) : Prop :=
  NoDup (map entry_name root) /\
  forall year entries, In (EntDir year entries) root -> NoDup entries.

(** The detailed request of a request. *)
Definition long_form (r : Request) : Request :=
  match r with
  | ListAll => ListAllDetailed
  | FetchOne year project => FetchOneDetailed year project
  | other => other
  end.

(** Nothing to strip on the left: empty, or a first character that is not
    white space. *)
Definition head_not_space (s : string) : Prop :=
  match s with
  | "" => True
  | String c _ => isspace_char c = false
  end.

(** The request as [handle_client] hands it to [process_request], when the
    read, the decoding and [get_extra_info] raise nothing. *)
Definition request_of (decode : list Byte.byte -> Result string)
    (reader : Connection.StreamReader) (writer : Connection.StreamWriter)
    : Result string :=
  data ← Connection.read reader 1024;
  message ← decode data;
  _ ← Connection.get_extra_info writer "peername";
  Ok (strip message).

(** What [handle_client] writes: the encoded response, if there is one. *)
Definition written {Server : Type} (decode : list Byte.byte -> Result string)
    (encode : string -> list Byte.byte)
    (process_request : string -> Server -> Result string * Server)
    (reader : Connection.StreamReader) (writer : Connection.StreamWriter)
    (self : Server) : list Connection.Event :=
  match request_of decode reader writer with
  | Ok request =>
      match (process_request request self).1 with
      | Ok response => [Connection.EvWrite (encode response)]
      | Raise _ => []
      end
  | Raise _ => []
  end.

(** Two entries that differ by the order of what a directory holds. *)
Definition same_entry (e e' : DirEntry) : Prop :=
  match e, e' with
  | EntFile name, EntFile name' => name = name'
  | EntDir name entries, EntDir name' entries' =>
      name = name' /\ Permutation entries entries'
  | _, _ => False
  end.

(** Two results of [glob] that differ by the order of enumeration, at the
    root or within the directories. *)
Definition same_root (root root' : list DirEntry) : Prop :=
  exists reordered, Forall2 same_entry root reordered /\
                    Permutation reordered root'.

(** [self.process_request] as [handle_client] calls it, for each variant,
    the filesystem and the clock being what they are at the call. *)
Definition simple_handler (joinpath : string -> string -> string)
    (fs : FileSystem) (now : Q) (message : string) (self : FingerServer)
    : Result string * FingerServer :=
  let '(response, self') := Simple.process_request joinpath fs now self message in
  (Ok response, self').

Definition win_handler (joinpath : string -> string -> string)
    (fromtimestamp : Q -> Exn + string) (fs : FileSystem) (now : Q)
    (message : string) (self : FingerServer) : Result string * FingerServer :=
  Win.process_request joinpath fromtimestamp fs now self message.

(** ** Sample data: the mocks of [tests/unit/test_client.py] *)

Module SampleClient.

(** A socket that answers the successive [recv] calls with [answers]. *)
Definition socket (answers : list (Client.Try (list Byte.byte)))
    : Client.Socket :=
  {| Client.create := Client.Returns tt;
     Client.connect _ _ := Client.Returns tt;
     Client.send _ := Client.Returns tt;
     Client.recv_script := answers |}.

Definition refused : Client.Socket :=
  {| Client.create := Client.Raises Client.ConnectionRefusedError;
     Client.connect _ _ := Client.Returns tt;
     Client.send _ := Client.Returns tt;
     Client.recv_script := [] |}.

Definition args : Client.Args :=
  {| Client.host := "localhost"; Client.query := "2025/test.project";
     Client.long := false; Client.port := 1079; Client.verbose := false |}.

Definition call (fs : FileSystem) (now : Q) : Call :=
  {| call_fs := fs; call_now := now; call_path := Sample.test_project |}.

(** The test project readable, its [stat] raising. *)
Definition unstattable : FileSystem :=
  {| fs_file := fs_file Sample.updated;
     fs_stat _ := inl "[Errno 13] Permission denied";
     fs_glob := fs_glob Sample.updated |}.

(** The sample root, enumerated in another order. *)
Definition shuffled_root : list DirEntry :=
  [EntFile "README"; EntDir "2025" ["notes.txt"; "test.project"];
   EntDir "drafts" ["x.project"]; EntDir "2024" ["a.project"; "b.project"]].

Definition shuffled : FileSystem :=
  {| fs_file := fs_file Sample.removed;
     fs_stat := fs_stat Sample.removed;
     fs_glob d := if String.eqb d "plans" then shuffled_root else [] |}.

End SampleClient.

(** * Properties *)

(** ** Strings *)

Section Strings.

Implicit Types (s a b suffix : string) (c sep : ascii).

Lemma app_nil_l s : "" +:+ s = s.
Proof. reflexivity. Qed.

Lemma app_cons c a s : String c a +:+ s = String c (a +:+ s).
Proof. reflexivity. Qed.

Lemma endswith_refl s : endswith s s = true.
Proof.
  pose proof (String.eqb_refl s) as H.
  destruct s; cbn -[String.eqb]; rewrite H; reflexivity.
Qed.

Lemma endswith_app_r suffix a s :
  endswith suffix s = true -> endswith suffix (a +:+ s) = true.
Proof.
  intros H. induction a as [|c a IH]; [exact H|].
  rewrite app_cons. cbn [endswith]. rewrite IH. apply orb_true_r.
Qed.

Lemma endswith_spec suffix s :
  endswith suffix s = true <-> exists a, s = a +:+ suffix.
Proof.
  split.
  - induction s as [|c s IH]; cbn [endswith]; intros H.
    + rewrite orb_false_r in H. apply String.eqb_eq in H. exists "". now subst.
    + apply orb_true_iff in H as [H|H].
      * apply String.eqb_eq in H. exists "". now subst.
      * destruct (IH H) as [a ->]. exists (String c a). reflexivity.
  - intros [a ->]. apply endswith_app_r, endswith_refl.
Qed.

Example strip_sample :
  strip (" 2025/a.project" +:+ String "013"%char nl) = "2025/a.project" /\
  strip (String "009"%char "  ") = "" /\
  strip "-l  @host " = "-l  @host".
Proof. repeat split; reflexivity. Qed.

Example split_sample :
  split "/" "2025/a/b" = ["2025"; "a"; "b"] /\ split "/" "" = [""] /\
  split "/" "2025/" = ["2025"; ""] /\ split "@" "@h" = [""; "h"] /\
  split1 "/" "2025/a/b" = ["2025"; "a/b"] /\ split1 "/" "ab" = ["ab"].
Proof. repeat split; reflexivity. Qed.

Example format_sample :
  str_of_N 0 = "0" /\ str_of_N 1204 = "1204" /\ rjust 8 "12" = "      12" /\
  ljust 4 "ab" = "ab  " /\ ljust 1 "ab" = "ab" /\
  join ", " ["a"; "b"; "c"] = "a, b, c" /\ join nl [] = "".
Proof. repeat split; reflexivity. Qed.

Example predicates_sample :
  endswith ".project" "a.project" = true /\
  endswith ".project" ".project" = true /\
  endswith ".project" "a.projects" = false /\
  contains "Invalid" "an Invalid request" = true /\
  contains "Invalid" "invalid" = false /\
  isdigit "" = false /\ isdigit "2025" = true /\ isdigit "20a5" = false /\
  startswith "-l " "-l @host" = true /\ startswith "-l " "-l" = false.
Proof. repeat split; reflexivity. Qed.

Example sorted_sample :
  sorted ["2025/b"; "2024/z"; "2025/a"; "10/x"; "9/x"]
  = ["10/x"; "2024/z"; "2025/a"; "2025/b"; "9/x"].
Proof. vm_compute. reflexivity. Qed.

Lemma split_without sep s :
  contains_char sep s = false -> split sep s = [s].
Proof.
  induction s as [|c s IH]; simpl; [reflexivity|].
  intros H. apply orb_false_iff in H as [Hc Hs].
  rewrite Hc, (IH Hs). reflexivity.
Qed.

Lemma split_at_sep sep a b :
  contains_char sep a = false ->
  split sep (a +:+ String sep b) = a :: split sep b.
Proof.
  induction a as [|c a IH]; intros H.
  - rewrite app_nil_l. simpl. rewrite Ascii.eqb_refl. reflexivity.
  - simpl in H. apply orb_false_iff in H as [Hc Ha].
    rewrite app_cons. simpl. rewrite Hc, (IH Ha). reflexivity.
Qed.

Lemma split_nonempty sep s : exists h t, split sep s = h :: t.
Proof.
  induction s as [|c s [h [t IH]]]; simpl; [eauto|].
  destruct (Ascii.eqb c sep); [eauto|]. rewrite IH. eauto.
Qed.

Lemma split_with_sep_length sep s :
  contains_char sep s = true -> (2 <= List.length (split sep s))%nat.
Proof.
  induction s as [|c s IH]; simpl; [discriminate|].
  destruct (Ascii.eqb c sep); simpl; intros H.
  - destruct (split_nonempty sep s) as [h [t ->]]. simpl. lia.
  - specialize (IH H). destruct (split sep s) as [|h t]; simpl in *; lia.
Qed.

Lemma split1_with_sep sep s :
  contains_char sep s = true -> exists a b, split1 sep s = [a; b].
Proof.
  induction s as [|c s IH]; simpl; [discriminate|].
  destruct (Ascii.eqb c sep); simpl; intros H; [eauto|].
  destruct (IH H) as [a [b ->]]. eauto.
Qed.

Lemma digit_is_not_slash c : isdigit_char c = true -> Ascii.eqb c "/" = false.
Proof.
  intros H. destruct (Ascii.eqb_spec c "/") as [->|]; [|reflexivity].
  vm_compute in H. discriminate.
Qed.

Lemma all_digits_without_slash s :
  all_chars isdigit_char s = true -> contains_char "/" s = false.
Proof.
  induction s as [|c s IH]; simpl; [reflexivity|].
  intros H. apply andb_true_iff in H as [Hc Hs].
  rewrite (digit_is_not_slash _ Hc), (IH Hs). reflexivity.
Qed.

Lemma isdigit_without_slash s :
  isdigit s = true -> contains_char "/" s = false.
Proof.
  destruct s; [discriminate|]. apply all_digits_without_slash.
Qed.

End Strings.

(** ** The cache: [_read_project_file] *)

Section Cache.

Implicit Types (fs : FileSystem) (self : FingerServer) (now : Q).

Lemma read_hit fs now self filepath timestamp content :
  cache self !! filepath = Some (timestamp, content) ->
  (now - timestamp < cache_time self)%Q ->
  _read_project_file fs now self filepath = (Some content, self, []).
Proof.
  intros Hentry Hfresh. unfold _read_project_file. rewrite Hentry.
  destruct (Qlt_le_dec (now - timestamp) (cache_time self)) as [_|Hstale].
  - reflexivity.
  - exfalso. apply (Qlt_not_le _ _ Hfresh Hstale).
Qed.

Lemma read_miss fs now self filepath :
  no_fresh_entry now self filepath ->
  _read_project_file fs now self filepath =
    match fs_file fs filepath with
    | Missing | StatFails _ => (None, self, [OpExists filepath])
    | Unreadable _ => (None, self, [OpExists filepath; OpReadText filepath])
    | Regular content =>
        (Some content,
         set_cache (<[filepath := (now, content)]> (cache self)) self,
         [OpExists filepath; OpReadText filepath])
    end.
Proof.
  unfold no_fresh_entry, _read_project_file.
  destruct (cache self !! filepath) as [[timestamp content]|]; intros Hstale.
  - destruct (Qlt_le_dec (now - timestamp) (cache_time self)) as [Hfresh|_].
    + exfalso. apply (Qlt_not_le _ _ Hfresh Hstale).
    + destruct (fs_file fs filepath); reflexivity.
  - destruct (fs_file fs filepath); reflexivity.
Qed.

Lemma read_miss_fails fs now self filepath :
  no_fresh_entry now self filepath ->
  read_fails (fs_file fs filepath) ->
  exists ops,
    _read_project_file fs now self filepath
    = (None, self, OpExists filepath :: ops).
Proof.
  intros Hstale Hfail. rewrite (read_miss _ _ _ _ Hstale).
  destruct (fs_file fs filepath); simpl in Hfail; try contradiction; eauto.
Qed.

(** A call leaves the time-to-live alone, and the entries of other paths. *)
Lemma read_cache_time fs now self filepath :
  cache_time (_read_project_file fs now self filepath).1.2 = cache_time self.
Proof.
  unfold _read_project_file.
  destruct (cache self !! filepath) as [[timestamp content]|];
    [destruct (Qlt_le_dec _ _)|]; try reflexivity;
    destruct (fs_file fs filepath); reflexivity.
Qed.

Lemma read_other_path fs now self filepath other :
  other <> filepath ->
  cache (_read_project_file fs now self filepath).1.2 !! other
  = cache self !! other.
Proof.
  intros Hne. unfold _read_project_file.
  destruct (cache self !! filepath) as [[timestamp content]|];
    [destruct (Qlt_le_dec _ _)|]; try reflexivity;
    destruct (fs_file fs filepath); simpl; try reflexivity;
    apply lookup_insert_ne; congruence.
Qed.

Lemma later_no_fresh_entry now now' self self' filepath :
  no_fresh_entry now self filepath ->
  cache self' !! filepath = cache self !! filepath ->
  cache_time self' = cache_time self ->
  (now <= now')%Q ->
  no_fresh_entry now' self' filepath.
Proof.
  unfold no_fresh_entry. intros Hstale -> -> Hlater.
  destruct (cache self !! filepath) as [[timestamp content]|]; [lra|exact I].
Qed.

Lemma run_calls_reattempts now self filepath :
  no_fresh_entry now self filepath ->
  forall (later : list Call) self',
    cache self' !! filepath = cache self !! filepath ->
    cache_time self' = cache_time self ->
    Forall (still_failing now filepath) later ->
    Forall (reattempts filepath) (run_calls self' later).
Proof.
  intros Hstale later.
  induction later as [|c rest IH]; intros self' Hsame Httl Hall; simpl.
  - constructor.
  - inversion Hall as [|? ? [Hclock Hfail] Hrest]; subst.
    pose proof (later_no_fresh_entry _ _ _ _ _ Hstale Hsame Httl Hclock) as Hstale'.
    destruct (decide (call_path c = filepath)) as [Heq|Hne].
    + destruct (read_miss_fails (call_fs c) _ _ _ Hstale' (Hfail Heq))
        as [ops Hcall].
      unfold do_call. rewrite Heq, Hcall. constructor.
      * intros _. eauto.
      * apply IH; assumption.
    + unfold do_call.
      pose proof (read_other_path (call_fs c) (call_now c) self' (call_path c)
                    filepath ltac:(congruence)) as Hkeep.
      pose proof (read_cache_time (call_fs c) (call_now c) self' (call_path c))
        as Hkeep_ttl.
      destruct (_read_project_file _ _ _ _) as [[r self''] ops]. simpl in *.
      constructor.
      * intros Heq. contradiction.
      * apply IH; [congruence | congruence | assumption].
Qed.

(** C1 (cache freshness).  If the cache holds for [filepath] an entry
    stored at [timestamp] with [content], a call of [_read_project_file]
    at a time [now] with [now - timestamp < cache_time] returns [content],
    leaves the server as it was and accesses no file, whatever the disk
    holds by then. *)
Theorem cache_freshness fs now self filepath timestamp content :
  cache self !! filepath = Some (timestamp, content) ->
  (now - timestamp < cache_time self)%Q ->
  _read_project_file fs now self filepath = (Some content, self, []).
Proof. apply read_hit. Qed.

(** C2 (cache expiry).  If the entry of [filepath] was stored at
    [timestamp] and [now - timestamp >= cache_time], a call at [now] goes to
    the disk, returns the content the file has now and overwrites the
    entry: after the call the cache holds [(now, new content)] for
    [filepath], the entries of the other paths, [plan_dir] and [cache_time]
    being what they were.  With [cache_time <= 0] and no timestamp in the
    future of [now], every call goes to the disk. *)
Theorem cache_expiry fs now self filepath :
  (forall timestamp content new_content,
     cache self !! filepath = Some (timestamp, content) ->
     (cache_time self <= now - timestamp)%Q ->
     fs_file fs filepath = Regular new_content ->
     let result := _read_project_file fs now self filepath in
     result.1.1 = Some new_content /\
     result.2 = [OpExists filepath; OpReadText filepath] /\
     cache result.1.2 !! filepath = Some (now, new_content) /\
     (forall other,
        other <> filepath -> cache result.1.2 !! other = cache self !! other) /\
     plan_dir result.1.2 = plan_dir self /\
     cache_time result.1.2 = cache_time self) /\
  ((cache_time self <= 0)%Q ->
   (forall timestamp content,
      cache self !! filepath = Some (timestamp, content) ->
      (timestamp <= now)%Q) ->
   exists r self' ops,
     _read_project_file fs now self filepath
     = (r, self', OpExists filepath :: ops)).
Proof.
  split.
  - intros timestamp content new_content Hentry Hstale Hfile result.
    subst result. rewrite read_miss, Hfile.
    + cbn [fst snd]. repeat split.
      * apply lookup_insert_eq.
      * intros other Hother. apply lookup_insert_ne. congruence.
    + unfold no_fresh_entry. rewrite Hentry. exact Hstale.
  - intros Httl Hpast.
    rewrite read_miss.
    + destruct (fs_file fs filepath); eauto.
    + unfold no_fresh_entry.
      destruct (cache self !! filepath) as [[timestamp content]|] eqn:Hentry;
        [|exact I].
      specialize (Hpast _ _ eq_refl). lra.
Qed.

(** C6 (negative results are not cached).  When the call goes to the disk
    and the read fails (missing file, [exists()] or [read_text()] raising),
    it returns [None] and the server, cache included, is what it was;
    every later call on that path whose read fails again returns [None]
    after going to the disk again, whatever calls on other paths come in
    between. *)
Theorem negative_not_cached fs now self filepath :
  no_fresh_entry now self filepath ->
  read_fails (fs_file fs filepath) ->
  (exists ops,
     _read_project_file fs now self filepath
     = (None, self, OpExists filepath :: ops)) /\
  forall later : list Call,
    Forall (still_failing now filepath) later ->
    Forall (reattempts filepath)
      (run_calls (_read_project_file fs now self filepath).1.2 later).
Proof.
  intros Hstale Hfail.
  destruct (read_miss_fails fs _ _ _ Hstale Hfail) as [ops Hcall].
  split; [eauto|].
  intros later Hlater. rewrite Hcall. simpl.
  eapply run_calls_reattempts; eauto.
Qed.

End Cache.

(** ** The catalog: [_list_projects] *)

Section Listing.

Implicit Types (fs : FileSystem) (self : FingerServer).

Lemma in_year_projects (year_dir : DirEntry) (s : string) :
  In s (year_projects year_dir) <->
  exists year entries name,
    year_dir = EntDir year entries /\ isdigit year = true /\
    In name entries /\ endswith ".project" name = true /\
    s = year +:+ "/" +:+ name.
Proof.
  destruct year_dir as [name|year entries]; simpl.
  - split; [contradiction|]. intros (? & ? & ? & Heq & _). discriminate.
  - destruct (isdigit year) eqn:Hyear; simpl.
    + rewrite in_map_iff. split.
      * intros (name & <- & Hin). apply filter_In in Hin as [Hin Hsuffix].
        exists year, entries, name. auto.
      * intros (y & es & name & Heq & _ & Hin & Hsuffix & ->).
        injection Heq as <- <-. exists name. split; [reflexivity|].
        apply filter_In. auto.
    + split; [contradiction|].
      intros (y & es & name & Heq & Hdigit & _). injection Heq as <- <-.
      congruence.
Qed.

Lemma in_list_projects fs self (s : string) :
  In s (_list_projects fs self) <->
  exists year entries name,
    In (EntDir year entries) (fs_glob fs (plan_dir self)) /\
    isdigit year = true /\ In name entries /\
    endswith ".project" name = true /\ s = year +:+ "/" +:+ name.
Proof.
  unfold _list_projects, sorted.
  pose proof (merge_sort_Permutation String.le
                (flat_map year_projects (fs_glob fs (plan_dir self)))) as Hperm.
  split.
  - intros Hin. apply (Permutation_in _ Hperm) in Hin.
    apply in_flat_map in Hin as (year_dir & Hdir & Hin).
    apply in_year_projects in Hin as (year & entries & name & -> & H).
    exists year, entries, name. tauto.
  - intros (year & entries & name & Hdir & H).
    apply (Permutation_in _ (Permutation_sym Hperm)).
    apply in_flat_map. exists (EntDir year entries). split; [exact Hdir|].
    apply in_year_projects. exists year, entries, name. tauto.
Qed.

(** C8.  [_list_projects] returns, sorted ascending in the lexicographic
    order of the whole strings, the ["{year}/{name}"] of exactly the
    entries [name] ending in [".project"] of the immediate subdirectories
    [year] of the root whose name is all digits: one string per such
    entry; files of the root, subdirectories with another name and entries
    without the suffix contribute nothing. *)
Theorem list_projects_sorted_exact fs self :
  StronglySorted String.le (_list_projects fs self) /\
  (forall s,
     In s (_list_projects fs self) <->
     exists year entries name,
       In (EntDir year entries) (fs_glob fs (plan_dir self)) /\
       isdigit year = true /\ In name entries /\
       endswith ".project" name = true /\ s = year +:+ "/" +:+ name) /\
  Permutation (_list_projects fs self)
    (flat_map year_projects (fs_glob fs (plan_dir self))).
Proof.
  split; [|split].
  - apply StronglySorted_merge_sort; apply _.
  - apply in_list_projects.
  - apply merge_sort_Permutation.
Qed.

Example list_projects_sample :
  _list_projects (Sample.disk None) Sample.server
  = ["2024/a.project"; "2024/b.project"; "2025/test.project"].
Proof. vm_compute. reflexivity. Qed.

End Listing.

(** ** Requests: [process_request] *)

Section Requests.

Variable joinpath : string -> string -> string.
Variable fromtimestamp : Q -> Exn + string.

Implicit Types (fs : FileSystem) (self : FingerServer) (now : Q)
  (request : string).

(** [process_request] answers the request it parses. *)
Lemma simple_process_request_respond fs now self request :
  Simple.process_request joinpath fs now self request
  = Simple.respond joinpath fs now self (Simple.parse request).
Proof.
  unfold Simple.process_request, Simple.parse.
  destruct (String.eqb (strip request) ""); [reflexivity|].
  destruct (split "/" (strip request)) as [|year [|project [|]]];
    try reflexivity.
  destruct (isdigit year); reflexivity.
Qed.

Lemma win_process_request_respond fs now self request :
  Win.process_request joinpath fromtimestamp fs now self request
  = Win.respond joinpath fromtimestamp fs now self (Win.parse request).
Proof.
  unfold Win.process_request, Win.parse.
  destruct (if startswith "-l " (strip request)
            then (true, strip (drop 3 (strip request)))
            else (false, strip request)) as [is_long_format request'].
  destruct (contains_char "@" request'); [|reflexivity].
  destruct (negb _); [reflexivity|].
  destruct (String.eqb _ ""); [destruct is_long_format; reflexivity|].
  destruct (contains_char "/" _) eqn:Hslash; [|reflexivity].
  destruct (split1_with_sep _ _ Hslash) as [year [project ->]].
  destruct (isdigit year); [|reflexivity].
  destruct is_long_format; reflexivity.
Qed.

(** *** The shape of the answers *)

Lemma truthy_nonempty (content : string) :
  content <> "" -> truthy (Some content) = Some content.
Proof. destruct content; [congruence|reflexivity]. Qed.

Lemma fetch_answers fs now self project_path year project :
  fetch_one_answers fs now self project_path year project
    match truthy (_read_project_file fs now self project_path).1.1 with
    | Some content => found_text project content
    | None => not_found_text year project
    end.
Proof.
  repeat split.
  - intros timestamp content Hentry Hfresh Hne.
    rewrite (read_hit _ _ _ _ _ _ Hentry Hfresh). cbn [fst snd].
    rewrite (truthy_nonempty _ Hne). reflexivity.
  - intros content Hstale Hfile Hne.
    rewrite (read_miss _ _ _ _ Hstale), Hfile. cbn [fst snd].
    rewrite (truthy_nonempty _ Hne). reflexivity.
  - intros Hstale Hfail.
    destruct (read_miss_fails fs _ _ _ Hstale Hfail) as [ops ->].
    reflexivity.
Qed.

Lemma simple_respond_fetch fs now self year project :
  (Simple.respond joinpath fs now self (FetchOne year project)).1
  = match truthy (_read_project_file fs now self
                    (joinpath (joinpath (plan_dir self) year) project)).1.1 with
    | Some content => found_text project content
    | None => not_found_text year project
    end.
Proof.
  simpl. destruct (_read_project_file _ _ _ _) as [[content self'] ops].
  simpl. destruct (truthy content); reflexivity.
Qed.

Lemma win_respond_fetch fs now self year project :
  (Win.respond joinpath fromtimestamp fs now self (FetchOne year project)).1
  = Ok match truthy (_read_project_file fs now self
                       (joinpath (joinpath (plan_dir self) year) project)).1.1 with
       | Some content => found_text project content
       | None => not_found_text year project
       end.
Proof.
  simpl. destruct (_read_project_file _ _ _ _) as [[content self'] ops].
  simpl. destruct (truthy content); reflexivity.
Qed.

(** C4, amended.  A fetch (not detailed) answers
    ["Project: {project}\n\n{C}\n"] with the content [C] that
    [_read_project_file] serves when it is not empty: the content of the
    fresh cache entry of the resolved path if there is one, even if the
    file changed since, and else the content of the existing, readable
    file; without a fresh entry, a failing read gives the not-found message
    naming project and year.  Both variants. *)
Theorem fetch_one_response fs now self request year project :
  let project_path := joinpath (joinpath (plan_dir self) year) project in
  (Simple.parse request = FetchOne year project ->
   fetch_one_answers fs now self project_path year project
     (Simple.process_request joinpath fs now self request).1) /\
  (Win.parse request = FetchOne year project ->
   exists response,
     (Win.process_request joinpath fromtimestamp fs now self request).1
     = Ok response /\
     fetch_one_answers fs now self project_path year project response).
Proof.
  intros project_path. split; intros Hparse.
  - rewrite simple_process_request_respond, Hparse, simple_respond_fetch.
    apply fetch_answers.
  - rewrite win_process_request_respond, Hparse, win_respond_fetch.
    eexists. split; [reflexivity|]. apply fetch_answers.
Qed.

(** C3, amended.  A request that is empty after stripping gets, from the
    simplified variant, the header line followed by the whole listing; the
    standard variant answers it with the usage text and gives that listing
    to a request of the form [@host]. *)
Theorem empty_request_lists_all fs now self request host :
  (strip request = "" ->
   Simple.process_request joinpath fs now self request
   = (listing_text (_list_projects fs self), self) /\
   Win.process_request joinpath fromtimestamp fs now self request
   = (Ok Win.usage_text, self)) /\
  (strip request = "@" +:+ host ->
   contains_char "@" host = false ->
   Win.process_request joinpath fromtimestamp fs now self request
   = (Ok (listing_text (_list_projects fs self)), self)).
Proof.
  split.
  - intros Hempty. split.
    + unfold Simple.process_request. rewrite Hempty. reflexivity.
    + unfold Win.process_request. rewrite Hempty. reflexivity.
  - intros Hform Hhost.
    unfold Win.process_request. rewrite Hform.
    change ("@" +:+ host) with (String "@" host).
    change (startswith "-l " (String "@" host)) with false.
    cbn [contains_char]. rewrite Ascii.eqb_refl. cbn [orb].
    cbn [split]. rewrite Ascii.eqb_refl, (split_without _ _ Hhost).
    reflexivity.
Qed.

(** C7, amended.  A malformed request gets, from the simplified variant, a
    help text that contains ["Invalid"]; from the standard variant, the
    text ["Invalid request format. ..."] when it has more than one [@] and
    else the usage text, which starts with ["Usage:"] and does not contain
    ["Invalid"]. *)
Theorem malformed_request_response fs now self request :
  (forall why,
     Simple.parse request = Invalid why ->
     Simple.process_request joinpath fs now self request
     = (Simple.invalid_text, self) /\
     contains "Invalid" Simple.invalid_text = true) /\
  (Win.parse request = Invalid TooManyAt ->
   Win.process_request joinpath fromtimestamp fs now self request
   = (Ok Win.invalid_format_text, self) /\
   contains "Invalid" Win.invalid_format_text = true) /\
  (Win.parse request = Invalid BadSelector ->
   Win.process_request joinpath fromtimestamp fs now self request
   = (Ok Win.usage_text, self) /\
   startswith "Usage:" Win.usage_text = true /\
   contains "Invalid" Win.usage_text = false).
Proof.
  split; [|split].
  - intros why Hparse. split; [|reflexivity].
    rewrite simple_process_request_respond, Hparse. reflexivity.
  - intros Hparse. split; [|reflexivity].
    rewrite win_process_request_respond, Hparse. reflexivity.
  - intros Hparse. split; [|split; reflexivity].
    rewrite win_process_request_respond, Hparse. reflexivity.
Qed.

Lemma nonempty_with_sep (a b : string) (c : ascii) :
  String.eqb (a +:+ String c b) "" = false.
Proof. destruct a; reflexivity. Qed.

(** C5, amended.  Of a request that, stripped, is [left/rest] with no [/]
    in [left]: when [left] is all digits (and not empty) and [rest] holds
    no further [/], the simplified variant fetches [rest] in year [left];
    when [rest] holds a further [/] the request is invalid, the split being
    on every [/] and exactly two parts being asked for; when [left] is not
    all digits the request is invalid. *)
Theorem bare_request_parse fs now self request left rest :
  strip request = left +:+ "/" +:+ rest ->
  contains_char "/" left = false ->
  (isdigit left = true -> contains_char "/" rest = false ->
   Simple.parse request = FetchOne left rest /\
   Simple.process_request joinpath fs now self request
   = Simple.respond joinpath fs now self (FetchOne left rest)) /\
  (contains_char "/" rest = true ->
   Simple.parse request = Invalid BadSelector /\
   Simple.process_request joinpath fs now self request
   = (Simple.invalid_text, self)) /\
  (isdigit left = false ->
   Simple.parse request = Invalid BadSelector /\
   Simple.process_request joinpath fs now self request
   = (Simple.invalid_text, self)).
Proof.
  intros Hform Hleft.
  assert (Hsplit : split "/" (strip request) = left :: split "/" rest).
  { rewrite Hform. change ("/" +:+ rest) with (String "/" rest).
    apply split_at_sep, Hleft. }
  assert (Hne : String.eqb (strip request) "" = false).
  { rewrite Hform. apply nonempty_with_sep. }
  assert (Hinvalid : Simple.parse request = Invalid BadSelector ->
            Simple.parse request = Invalid BadSelector /\
            Simple.process_request joinpath fs now self request
            = (Simple.invalid_text, self)).
  { intros Hparse. split; [exact Hparse|].
    rewrite simple_process_request_respond, Hparse. reflexivity. }
  split; [|split].
  - intros Hdigits Hrest.
    assert (Hparse : Simple.parse request = FetchOne left rest).
    { unfold Simple.parse.
      rewrite Hne, Hsplit, (split_without _ _ Hrest), Hdigits. reflexivity. }
    split; [exact Hparse|].
    rewrite simple_process_request_respond, Hparse. reflexivity.
  - intros Hrest. apply Hinvalid.
    pose proof (split_with_sep_length _ _ Hrest) as Hlen.
    unfold Simple.parse. rewrite Hne, Hsplit.
    destruct (split "/" rest) as [|p [|q t]]; simpl in Hlen; try lia.
    reflexivity.
  - intros Hdigits. apply Hinvalid.
    unfold Simple.parse. rewrite Hne, Hsplit, Hdigits.
    destruct (split "/" rest) as [|p [|q t]]; reflexivity.
Qed.

(** *** The trailing newline *)

Lemma for_each_ok {A B : Type} (f : A -> Result B) (l : list A) :
  (forall x, In x l -> exists y, f x = Ok y) ->
  exists ys, for_each f l = Ok ys.
Proof.
  induction l as [|x r IH]; intros Hall; simpl; [eauto|].
  destruct (Hall x) as [y Hy]; [now left|].
  destruct IH as [ys Hys]; [intros; apply Hall; now right|].
  rewrite Hy, Hys. simpl. eauto.
Qed.

Lemma names_without_slash_spec fs self year entries name :
  names_without_slash fs self = true ->
  In (EntDir year entries) (fs_glob fs (plan_dir self)) ->
  In name entries ->
  contains_char "/" name = false.
Proof.
  unfold names_without_slash. intros Hall Hdir Hname.
  rewrite forallb_forall in Hall. specialize (Hall _ Hdir). simpl in Hall.
  rewrite forallb_forall in Hall. specialize (Hall _ Hname).
  now apply negb_true_iff in Hall.
Qed.

Lemma detail_line_ok fs self (proj : string) :
  names_without_slash fs self = true ->
  In proj (_list_projects fs self) ->
  exists line, Win.detail_line joinpath fromtimestamp fs self proj = Ok line.
Proof.
  intros Hnames Hin.
  apply in_list_projects in Hin
    as (year & entries & name & Hdir & Hdigits & Hname & _ & ->).
  unfold Win.detail_line.
  change (year +:+ "/" +:+ name) with (year +:+ String "/" name).
  rewrite (split_at_sep _ _ _ (isdigit_without_slash _ Hdigits)).
  rewrite (split_without _ _
             (names_without_slash_spec _ _ _ _ _ Hnames Hdir Hname)).
  eauto.
Qed.

Ltac ends_nl :=
  solve [repeat first [apply endswith_refl | apply endswith_app_r]].

Lemma detailed_project_ends_nl fs (project_path year project content : string) :
  endswith nl
    (Win.detailed_project fromtimestamp fs project_path year project content)
  = true.
Proof.
  unfold Win.detailed_project.
  destruct (fs_stat fs project_path) as [e|stats];
    [|destruct (fromtimestamp (st_mtime stats))]; ends_nl.
Qed.

(** C10.  Whatever the request, the response of [process_request] ends
    with a newline: in the simplified variant on each of its branches, and
    in the standard variant, which returns a response on each of its
    branches when no name listed in a year directory holds a [/]. *)
Theorem response_ends_with_newline fs now self request :
  endswith nl (Simple.process_request joinpath fs now self request).1 = true /\
  (names_without_slash fs self = true ->
   exists response,
     (Win.process_request joinpath fromtimestamp fs now self request).1
     = Ok response /\
     endswith nl response = true).
Proof.
  split.
  - rewrite simple_process_request_respond.
    destruct (Simple.parse request) as [| |year project|year project|why];
      try (unfold Simple.respond, Simple.invalid_text; cbn [fst]; ends_nl).
    rewrite simple_respond_fetch.
    destruct (truthy _); unfold found_text, not_found_text; ends_nl.
  - intros Hnames. rewrite win_process_request_respond.
    destruct (Win.parse request) as [| |year project|year project|[|]].
    + eexists. split; [reflexivity|]. ends_nl.
    + destruct (for_each_ok (Win.detail_line joinpath fromtimestamp fs self)
                  (_list_projects fs self)) as [details Hdetails].
      { intros proj. apply detail_line_ok, Hnames. }
      unfold Win.respond. rewrite Hdetails.
      eexists. split; [reflexivity|]. ends_nl.
    + rewrite win_respond_fetch. eexists. split; [reflexivity|].
      destruct (truthy _); unfold found_text, not_found_text; ends_nl.
    + unfold Win.respond.
      destruct (_read_project_file _ _ _ _) as [[content self'] ops].
      destruct (truthy content) as [text|]; eexists;
        (split; [reflexivity|]); cbn [fst].
      * apply detailed_project_ends_nl.
      * ends_nl.
    + eexists. split; [reflexivity|].
      unfold Win.invalid_format_text. ends_nl.
    + eexists. split; [reflexivity|]. unfold Win.usage_text. ends_nl.
Qed.

End Requests.

(** ** Connections: [handle_client] *)

Section Handler.

Import Connection.

Context {Server : Type}.
Variable decode : list Byte.byte -> Result string.
Variable encode : string -> list Byte.byte.
Variable process_request : string -> Server -> Result string * Server.

Ltac run_handler :=
  unfold run, handle_client, try_finally, try_except, call, emit, lift,
    process, mbind, IO_bind;
  cbn [fst snd].

Ltac close_step writer :=
  destruct (close writer) as [[]|?] eqn:?; cbn;
  [destruct (wait_closed writer) as [[]|?] eqn:?; cbn|].

(** C9, amended.  Whatever the reader, the writer, the decoding and the
    processing answer or raise, [handle_client] calls [writer.close()]
    exactly once and writes nothing when the read or the decoding raised.
    No exception of the read, the decoding, the processing or the writing
    reaches the caller: the handler returns without an exception whenever
    the closing calls raise none.  What [writer.close()] or
    [writer.wait_closed()] raises does reach the caller, the [finally] block
    being outside the [except] clause: the handler ends as these two calls
    end. *)
Theorem handle_client_closes_once (reader : StreamReader)
    (writer : StreamWriter) (self : Server) :
  let result := run decode encode process_request reader writer self in
  closes result.2.2 = 1%nat /\
  (failed (data ← read reader 1024; decode data) -> writes result.2.2 = 0%nat) /\
  (close writer = Ok tt -> wait_closed writer = Ok tt -> result.1 = Ok tt) /\
  result.1 = (_ ← close writer; wait_closed writer).
Proof.
  run_handler. unfold Result_bind.
  destruct (read reader 1024) as [data|e] eqn:Hread; cbn.
  2: { close_step writer; repeat split; congruence. }
  destruct (decode data) as [message|e] eqn:Hdecode; cbn.
  2: { close_step writer; repeat split; congruence. }
  destruct (get_extra_info writer "peername") as [addr|e] eqn:Haddr; cbn.
  2: { close_step writer; repeat split; try congruence; contradiction. }
  destruct (process_request (strip message) self) as [[response|e] self']
    eqn:Hprocess; cbn.
  2: { close_step writer; repeat split; try congruence; contradiction. }
  destruct (write writer (encode response)) as [[]|e] eqn:Hwrite; cbn.
  2: { close_step writer; repeat split; try congruence; contradiction. }
  destruct (drain writer) as [[]|e] eqn:Hdrain; cbn;
    close_step writer; repeat split; try congruence; contradiction.
Qed.

End Handler.

(** ** The properties at the sample data *)

Module Instances.

Import Sample.

(** A read at time 250 of the entry stored at 100, the file rewritten. *)
Lemma cache_freshness_witness :
  _read_project_file updated 250 Sample.warm Sample.test_project
  = (Some "Test project content", Sample.warm, []).
Proof.
  apply (cache_freshness updated 250 Sample.warm Sample.test_project 100
           "Test project content").
  - vm_compute. reflexivity.
  - vm_compute. reflexivity.
Defined.

(** A read at time 500 of the entry stored at 100, the file rewritten; and
    the read of [test_cache_invalidation], with [cache_time = -1]. *)
Lemma cache_expiry_witness :
  ((_read_project_file updated 500 Sample.warm Sample.test_project).1.1
   = Some "Updated content" /\
   (_read_project_file updated 500 Sample.warm Sample.test_project).2
   = [OpExists Sample.test_project; OpReadText Sample.test_project] /\
   cache (_read_project_file updated 500 Sample.warm Sample.test_project).1.2
     !! Sample.test_project
   = Some (500%Q, "Updated content")) /\
  exists r self' ops,
    _read_project_file updated 100
      {| plan_dir := "plans"; cache := cache Sample.warm; cache_time := -1 |}
      Sample.test_project
    = (r, self', OpExists Sample.test_project :: ops).
Proof.
  split.
  - destruct (proj1 (cache_expiry updated 500 Sample.warm Sample.test_project)
                100%Q "Test project content" "Updated content")
      as (Hcontent & Hops & Hentry & _).
    + vm_compute. reflexivity.
    + vm_compute. discriminate.
    + vm_compute. reflexivity.
    + auto.
  - apply (proj2 (cache_expiry updated 100 _ Sample.test_project)).
    + vm_compute. discriminate.
    + intros timestamp content Hentry. vm_compute in Hentry.
      injection Hentry as <- _. vm_compute. discriminate.
Defined.

(** The file removed, the entry stale: two reads in a row fail. *)
Lemma negative_not_cached_witness :
  (exists ops,
     _read_project_file removed 500 Sample.warm Sample.test_project
     = (None, Sample.warm, OpExists Sample.test_project :: ops)) /\
  Forall (reattempts Sample.test_project)
    (run_calls
       (_read_project_file removed 500 Sample.warm Sample.test_project).1.2
       [{| call_fs := removed; call_now := 501;
           call_path := Sample.test_project |}]).
Proof.
  destruct (negative_not_cached removed 500 Sample.warm Sample.test_project)
    as [Hfirst Hlater].
  - vm_compute. discriminate.
  - vm_compute. exact I.
  - split; [exact Hfirst|]. apply Hlater.
    constructor; [|constructor]. split.
    + vm_compute. discriminate.
    + intros _. vm_compute. exact I.
Defined.

(** The simplified variant lists on a blank request, the standard one on
    [@localhost]. *)
Lemma empty_request_lists_all_witness :
  (Simple.process_request joinpath removed 0 server "  "
   = (listing_text (_list_projects removed server), server) /\
   Win.process_request joinpath fromtimestamp removed 0 server "  "
   = (Ok Win.usage_text, server)) /\
  Win.process_request joinpath fromtimestamp removed 0 server "@localhost"
  = (Ok (listing_text (_list_projects removed server)), server).
Proof.
  split.
  - apply (proj1 (empty_request_lists_all joinpath fromtimestamp removed 0
                    server "  " "localhost")).
    reflexivity.
  - apply (proj2 (empty_request_lists_all joinpath fromtimestamp removed 0
                    server "@localhost" "localhost")); reflexivity.
Defined.

(** C3 as stated fails: the standard variant answers the empty request
    with its usage text, not with the listing. *)
Lemma empty_request_win_counterexample :
  strip "" = "" /\
  (Win.process_request joinpath fromtimestamp removed 0 server "").1
  = Ok Win.usage_text /\
  Win.usage_text <> listing_text (_list_projects removed server).
Proof.
  split; [reflexivity|]. split; [reflexivity|].
  intros H. vm_compute in H. discriminate H.
Qed.

(** The fetch of [test_process_request_specific_project], from a warm and
    from a cold cache, and that of a file that is not there. *)
Lemma fetch_one_response_witness :
  (Simple.process_request joinpath updated 250 warm "2025/test.project").1
  = found_text "test.project" "Test project content" /\
  (Simple.process_request joinpath updated 250 server "2025/test.project").1
  = found_text "test.project" "Updated content" /\
  (Simple.process_request joinpath removed 250 server "2025/test.project").1
  = not_found_text "2025" "test.project".
Proof.
  pose proof (fun fs self =>
                proj1 (fetch_one_response joinpath fromtimestamp fs 250 self
                         "2025/test.project" "2025" "test.project") eq_refl)
    as H.
  split; [|split].
  - apply (proj1 (H updated warm) 100%Q).
    + vm_compute. reflexivity.
    + vm_compute. reflexivity.
    + discriminate.
  - apply (proj1 (proj2 (H updated server))).
    + vm_compute. exact I.
    + vm_compute. reflexivity.
    + discriminate.
  - apply (proj2 (proj2 (H removed server))).
    + vm_compute. exact I.
    + vm_compute. exact I.
Defined.

(** C4 as stated fails: the file exists, is readable and holds
    ["Updated content"], and the fetch at time 250 answers with the content
    cached at time 100. *)
Lemma fetch_one_stale_counterexample :
  Simple.parse "2025/test.project" = FetchOne "2025" "test.project" /\
  Win.parse "2025/test.project@host" = FetchOne "2025" "test.project" /\
  fs_file updated (joinpath (joinpath (plan_dir warm) "2025") "test.project")
  = Regular "Updated content" /\
  (Simple.process_request joinpath updated 250 warm "2025/test.project").1
  = found_text "test.project" "Test project content" /\
  (Win.process_request joinpath fromtimestamp updated 250 warm
     "2025/test.project@host").1
  = Ok (found_text "test.project" "Test project content") /\
  found_text "test.project" "Test project content"
  <> found_text "test.project" "Updated content".
Proof.
  repeat split; try (vm_compute; reflexivity).
  intros H. vm_compute in H. discriminate H.
Qed.

(** The slip that C4, amended, leaves out: an existing, readable, empty
    file is answered as not found ([if content:] is false of [""]). *)
Example fetch_one_empty_file :
  fs_file (disk (Some "")) test_project = Regular "" /\
  (Simple.process_request joinpath (disk (Some "")) 0 server
     "2025/test.project").1
  = not_found_text "2025" "test.project".
Proof. split; vm_compute; reflexivity. Qed.

(** [2025/test.project] is a fetch; [2025/sub/a.project] and
    [invalid/format] are invalid. *)
Lemma bare_request_parse_witness :
  Simple.parse "2025/test.project" = FetchOne "2025" "test.project" /\
  Simple.parse "2025/sub/a.project" = Invalid BadSelector /\
  Simple.parse "invalid/format" = Invalid BadSelector.
Proof.
  pose proof (fun request left rest =>
                bare_request_parse joinpath removed 0 server request left rest)
    as H.
  split; [|split].
  - apply (proj1 (H "2025/test.project" "2025" "test.project"
                    eq_refl eq_refl)); reflexivity.
  - apply (proj1 (proj2 (H "2025/sub/a.project" "2025" "sub/a.project"
                           eq_refl eq_refl))); reflexivity.
  - apply (proj2 (proj2 (H "invalid/format" "invalid" "format"
                           eq_refl eq_refl))); reflexivity.
Defined.

(** C5 as stated fails: a bare request with an all-digit year and a rest
    holding a further [/] is invalid, not a fetch of that rest. *)
Lemma bare_request_nested_counterexample :
  contains_char "@" "2025/sub/a.project" = false /\
  isdigit "2025" = true /\
  split1 "/" "2025/sub/a.project" = ["2025"; "sub/a.project"] /\
  Simple.parse "2025/sub/a.project" = Invalid BadSelector /\
  Simple.parse "2025/sub/a.project" <> FetchOne "2025" "sub/a.project" /\
  Simple.process_request joinpath removed 0 server "2025/sub/a.project"
  = (Simple.invalid_text, server).
Proof.
  repeat split; try reflexivity. discriminate.
Qed.

(** [invalid/format], the request of [test_process_request_invalid_format],
    and [a@b@c]. *)
Lemma malformed_request_response_witness :
  (Simple.process_request joinpath removed 0 server "invalid/format"
   = (Simple.invalid_text, server) /\
   contains "Invalid" Simple.invalid_text = true) /\
  (Win.process_request joinpath fromtimestamp removed 0 server "a@b@c"
   = (Ok Win.invalid_format_text, server) /\
   contains "Invalid" Win.invalid_format_text = true) /\
  (Win.process_request joinpath fromtimestamp removed 0 server "invalid/format"
   = (Ok Win.usage_text, server) /\
   startswith "Usage:" Win.usage_text = true /\
   contains "Invalid" Win.usage_text = false).
Proof.
  pose proof (malformed_request_response joinpath fromtimestamp removed 0 server)
    as H.
  split; [|split].
  - apply (proj1 (H "invalid/format") BadSelector). reflexivity.
  - apply (proj1 (proj2 (H "a@b@c"))). reflexivity.
  - apply (proj2 (proj2 (H "invalid/format"))). reflexivity.
Defined.

(** C7 as stated fails: the standard variant answers the malformed
    [invalid/format] with its usage text, which does not contain
    ["Invalid"]. *)
Lemma malformed_request_win_counterexample :
  Win.parse "invalid/format" = Invalid BadSelector /\
  (Win.process_request joinpath fromtimestamp removed 0 server
     "invalid/format").1 = Ok Win.usage_text /\
  contains "Invalid" Win.usage_text = false.
Proof. repeat split; reflexivity. Qed.

(** The detailed listing of the sample root ends with a newline. *)
Lemma response_ends_with_newline_witness :
  endswith nl (Simple.process_request joinpath updated 0 server "").1 = true /\
  exists response,
    (Win.process_request joinpath fromtimestamp updated 0 server "-l @host").1
    = Ok response /\
    endswith nl response = true.
Proof.
  split.
  - apply (proj1 (response_ends_with_newline joinpath fromtimestamp updated 0
                    server "")).
  - apply (proj2 (response_ends_with_newline joinpath fromtimestamp updated 0
                    server "-l @host")).
    vm_compute. reflexivity.
Defined.

(** The connection of [test_handle_client_error]: the read raises. *)
Lemma handle_client_closes_once_witness :
  let result :=
    Connection.run decode encode (process_request updated 0) broken_reader
      writer server in
  Connection.closes result.2.2 = 1%nat /\
  Connection.writes result.2.2 = 0%nat /\
  result.1 = Ok tt.
Proof.
  pose proof (handle_client_closes_once decode encode
                (process_request updated 0) broken_reader writer server)
    as (Hclose & Hwrite & Hreturn & _).
  split; [exact Hclose|]. split.
  - apply Hwrite. exact I.
  - apply Hreturn; reflexivity.
Defined.

(** C9 as stated fails: when [wait_closed] raises, the handler raises,
    after a read that raised as well as after an exchange without fault. *)
Lemma handle_client_propagates_counterexample :
  (Connection.run decode encode (process_request updated 0) broken_reader
     resetting_writer server).1
  = Raise "ConnectionResetError" /\
  (Connection.run decode encode (process_request updated 0)
     (reader "2025/test.project") resetting_writer server).1
  = Raise "ConnectionResetError".
Proof. split; vm_compute; reflexivity. Qed.

(** The connection of [test_handle_client]: one write, of the project. *)
Example handle_client_sample :
  (Connection.run decode encode (process_request updated 0)
     (reader "2025/test.project") writer server).2.2
  = [Connection.EvRead 1024; Connection.EvGetExtraInfo "peername";
     Connection.EvPrint
       (Connection.Received "2025/test.project" "('127.0.0.1', 12345)");
     Connection.EvWrite
       (encode (found_text "test.project" "Updated content"));
     Connection.EvDrain; Connection.EvClose; Connection.EvWaitClosed].
Proof. vm_compute. reflexivity. Qed.

End Instances.

(** * Further properties *)

(** ** Stripping *)

Section Stripping.

Implicit Types (s a b w : string) (c : ascii).

Lemma str_app_assoc a b s : (a +:+ b) +:+ s = a +:+ b +:+ s.
Proof.
  induction a as [|c a IH]; [reflexivity|].
  rewrite !app_cons, IH. reflexivity.
Qed.

Lemma lstrip_head_not_space s : head_not_space s -> lstrip s = s.
Proof. destruct s as [|c s]; simpl; [reflexivity|]. intros ->. reflexivity. Qed.

Lemma head_not_space_lstrip s : head_not_space (lstrip s).
Proof.
  induction s as [|c s IH]; simpl; [exact I|].
  destruct (isspace_char c) eqn:Hc; [exact IH|exact Hc].
Qed.

Lemma head_not_space_rstrip s : head_not_space s -> head_not_space (rstrip s).
Proof.
  destruct s as [|c s]; simpl; [trivial|]. intros Hc.
  destruct (rstrip s); [rewrite Hc|]; exact Hc.
Qed.

Lemma rstrip_idem s : rstrip (rstrip s) = rstrip s.
Proof.
  induction s as [|c s IH]; [reflexivity|]. simpl.
  destruct (rstrip s) as [|d r] eqn:Hr.
  - destruct (isspace_char c) eqn:Hc; [reflexivity|].
    simpl. rewrite Hc. reflexivity.
  - cbn [rstrip] in IH |- *. cbn [rstrip]. rewrite IH. reflexivity.
Qed.

Lemma strip_idem s : strip (strip s) = strip s.
Proof.
  unfold strip.
  rewrite (lstrip_head_not_space (rstrip (lstrip s))).
  - apply rstrip_idem.
  - apply head_not_space_rstrip, head_not_space_lstrip.
Qed.

Lemma rstrip_app_stable a b :
  rstrip b = b -> b <> "" -> rstrip (a +:+ b) = a +:+ b.
Proof.
  intros Hb Hne. induction a as [|c a IH]; [exact Hb|].
  rewrite app_cons. cbn [rstrip]. rewrite IH.
  destruct (a +:+ b) eqn:Hab; [|reflexivity].
  destruct a; [|discriminate]. rewrite app_nil_l in Hab. contradiction.
Qed.

Lemma rstrip_spaces w : all_chars isspace_char w = true -> rstrip w = "".
Proof.
  induction w as [|c w IH]; simpl; [reflexivity|].
  intros H. apply andb_true_iff in H as [Hc Hw].
  rewrite (IH Hw), Hc. reflexivity.
Qed.

Lemma rstrip_app_spaces a w :
  all_chars isspace_char w = true -> rstrip (a +:+ w) = rstrip a.
Proof.
  intros Hw. induction a as [|c a IH].
  - rewrite app_nil_l. apply rstrip_spaces, Hw.
  - rewrite app_cons. cbn [rstrip]. rewrite IH. reflexivity.
Qed.

Lemma rstrip_cons_stable c s :
  isspace_char c = false -> rstrip s = s -> rstrip (String c s) = String c s.
Proof.
  intros Hc Hs. cbn [rstrip]. rewrite Hs.
  destruct s; [rewrite Hc|]; reflexivity.
Qed.

Lemma digit_is_not_space c : isdigit_char c = true -> isspace_char c = false.
Proof.
  destruct c as [[] [] [] [] [] [] [] []]; vm_compute; congruence.
Qed.

Lemma isdigit_head_not_space s a : isdigit s = true -> head_not_space (s +:+ a).
Proof.
  destruct s as [|c s]; [discriminate|]. intros H.
  change (isspace_char c = false). simpl in H.
  apply andb_true_iff in H as [Hc _]. apply digit_is_not_space, Hc.
Qed.

End Stripping.

(** ** The cache over several calls *)

Section CacheHistory.

Implicit Types (fs : FileSystem) (self : FingerServer) (now : Q).

Lemma read_plan_dir fs now self filepath :
  plan_dir (_read_project_file fs now self filepath).1.2 = plan_dir self.
Proof.
  unfold _read_project_file.
  destruct (cache self !! filepath) as [[timestamp content]|];
    [destruct (Qlt_le_dec _ _)|]; try reflexivity;
    destruct (fs_file fs filepath); reflexivity.
Qed.

(** After a call the entry of its path is the one before, or the one just
    read. *)
Lemma read_own_path fs now self filepath :
  cache (_read_project_file fs now self filepath).1.2 !! filepath
  = cache self !! filepath \/
  exists content,
    fs_file fs filepath = Regular content /\
    cache (_read_project_file fs now self filepath).1.2 !! filepath
    = Some (now, content).
Proof.
  unfold _read_project_file.
  destruct (cache self !! filepath) as [[timestamp content]|] eqn:Hentry;
    [destruct (Qlt_le_dec _ _)|]; auto;
    destruct (fs_file fs filepath) as [|disk| |] eqn:Hfile; auto;
    right; exists disk; simpl; rewrite lookup_insert_eq; auto.
Qed.

(** X1.  Once a call has read a file from the disk, every later call on that
    path made less than [cache_time] after it returns the content read then
    and accesses no file, whatever happens to the disk and whatever calls on
    other paths come in between. *)
Theorem one_disk_read_per_ttl fs now self filepath content (later : list Call) :
  no_fresh_entry now self filepath ->
  fs_file fs filepath = Regular content ->
  Forall (fun c => (call_now c - now < cache_time self)%Q) later ->
  (_read_project_file fs now self filepath).1.1 = Some content /\
  Forall (fun outcome : Call * option string * list FsOp =>
            call_path outcome.1.1 = filepath ->
            outcome.1.2 = Some content /\ outcome.2 = [])
    (run_calls (_read_project_file fs now self filepath).1.2 later).
Proof.
  intros Hstale Hfile Hlater. rewrite (read_miss _ _ _ _ Hstale), Hfile.
  split; [reflexivity|]. cbn [fst snd].
  set (self1 := set_cache _ self).
  assert (Hentry : cache self1 !! filepath = Some (now, content))
    by apply lookup_insert_eq.
  assert (Httl : cache_time self1 = cache_time self) by reflexivity.
  clearbody self1. revert self1 Hentry Httl.
  induction later as [|c rest IH]; intros self1 Hentry Httl; simpl;
    [constructor|].
  inversion Hlater as [|? ? Hfresh Hrest]; subst.
  unfold do_call.
  destruct (decide (call_path c = filepath)) as [Heq|Hne].
  - rewrite Heq, (read_hit (call_fs c) (call_now c) self1 filepath now content);
      [|exact Hentry|rewrite Httl; exact Hfresh].
    constructor; [auto|]. apply IH; assumption.
  - pose proof (read_other_path (call_fs c) (call_now c) self1 (call_path c)
                  filepath ltac:(congruence)) as Hkeep.
    pose proof (read_cache_time (call_fs c) (call_now c) self1 (call_path c))
      as Hkeep_ttl.
    destruct (_read_project_file _ _ _ _) as [[r self2] ops]. simpl in *.
    constructor; [intros Heq; contradiction|].
    apply IH; [assumption|congruence|congruence].
Qed.

(** X2.  A sequence of calls changes neither [plan_dir] nor [cache_time],
    removes no entry of the cache, and leaves the entry of every path it does
    not call as it was. *)
Theorem calls_keep_the_rest self (cs : list Call) :
  plan_dir (after_calls self cs) = plan_dir self /\
  cache_time (after_calls self cs) = cache_time self /\
  (forall filepath,
     is_Some (cache self !! filepath) ->
     is_Some (cache (after_calls self cs) !! filepath)) /\
  (forall filepath,
     Forall (fun c => call_path c <> filepath) cs ->
     cache (after_calls self cs) !! filepath = cache self !! filepath).
Proof.
  revert self. induction cs as [|c rest IH]; intros self; simpl.
  - repeat split; auto.
  - destruct (IH (do_call self c).1.2) as (Hdir & Httl & Hkeep & Hother).
    unfold do_call in *. repeat split.
    + rewrite Hdir. apply read_plan_dir.
    + rewrite Httl. apply read_cache_time.
    + intros filepath Hsome. apply Hkeep.
      destruct (decide (filepath = call_path c)) as [->|Hne].
      * destruct (read_own_path (call_fs c) (call_now c) self (call_path c))
          as [->|(content & _ & ->)]; [exact Hsome|eauto].
      * rewrite read_other_path; assumption.
    + intros filepath Hall. inversion Hall as [|? ? Hne Hrest]; subst.
      rewrite (Hother _ Hrest). apply read_other_path. congruence.
Qed.

(** X3.  The cache invents nothing: after a sequence of calls, an entry
    [(timestamp, content)] of a path either was there before or was stored by
    a call of the sequence on that path, made at [timestamp], that found
    [content] in the file. *)
Theorem cache_holds_what_was_read self (cs : list Call) filepath
    (entry : Q * string) :
  cache (after_calls self cs) !! filepath = Some entry ->
  cache self !! filepath = Some entry \/ read_by cs filepath entry.
Proof.
  revert self. induction cs as [|c rest IH]; intros self; simpl; [auto|].
  intros Hentry. apply IH in Hentry as [Hentry|(c' & Hin & Hc')].
  - unfold do_call in Hentry.
    destruct (decide (filepath = call_path c)) as [->|Hne].
    + destruct (read_own_path (call_fs c) (call_now c) self (call_path c))
        as [Heq|(content & Hfile & Heq)]; rewrite Heq in Hentry.
      * left. exact Hentry.
      * right. exists c. injection Hentry as <-. simpl. auto.
    + left. rewrite read_other_path in Hentry; assumption.
  - right. exists c'. split; [now right|exact Hc'].
Qed.

End CacheHistory.

(** ** More on the catalog *)

Section ListingMore.

Variable joinpath : string -> string -> string.
Variable fromtimestamp : Q -> Exn + string.

Implicit Types (fs : FileSystem) (self : FingerServer) (s a b : string).

Lemma contains_char_app c a b :
  contains_char c (a +:+ b) = contains_char c a || contains_char c b.
Proof.
  induction a as [|d a IH]; [reflexivity|].
  rewrite app_cons. simpl. rewrite IH. apply orb_assoc.
Qed.

Lemma all_digits_without sep s :
  isdigit_char sep = false ->
  all_chars isdigit_char s = true -> contains_char sep s = false.
Proof.
  intros Hsep. induction s as [|c s IH]; simpl; [reflexivity|].
  intros H. apply andb_true_iff in H as [Hc Hs]. rewrite (IH Hs).
  destruct (Ascii.eqb_spec c sep) as [->|]; [congruence|reflexivity].
Qed.

Lemma isdigit_without sep s :
  isdigit_char sep = false -> isdigit s = true -> contains_char sep s = false.
Proof. destruct s; [discriminate|]. apply all_digits_without. Qed.

Lemma split1_at_sep sep a b :
  contains_char sep a = false -> split1 sep (a +:+ String sep b) = [a; b].
Proof.
  induction a as [|c a IH]; intros H.
  - rewrite app_nil_l. simpl. rewrite Ascii.eqb_refl. reflexivity.
  - simpl in H. apply orb_false_iff in H as [Hc Ha].
    rewrite app_cons. simpl. rewrite Hc, (IH Ha). reflexivity.
Qed.

Lemma prefix_app a b : String.prefix a (a +:+ b) = true.
Proof.
  induction a as [|c a IH]; [destruct b; reflexivity|].
  rewrite app_cons. simpl. destruct (ascii_dec c c); [exact IH|congruence].
Qed.

(** Two identifiers with all-digit years are equal only if years and names
    are. *)
Lemma identifier_inj (year year' name name' : string) :
  isdigit year = true -> isdigit year' = true ->
  year +:+ "/" +:+ name = year' +:+ "/" +:+ name' ->
  year = year' /\ name = name'.
Proof.
  intros Hy Hy' Heq.
  assert (Hsplit : split1 "/" (year +:+ String "/" name)
                   = split1 "/" (year' +:+ String "/" name'))
    by (f_equal; exact Heq).
  rewrite !split1_at_sep in Hsplit by (apply isdigit_without_slash; assumption).
  injection Hsplit as -> ->. auto.
Qed.

Lemma year_projects_nodup (year_dir : DirEntry) :
  (forall year entries, year_dir = EntDir year entries -> NoDup entries) ->
  NoDup (year_projects year_dir).
Proof.
  destruct year_dir as [name|year entries]; simpl; [constructor|].
  intros Hentries. destruct (isdigit year); [|constructor].
  assert (Hinj : Inj (=) (=) (fun f => year +:+ "/" +:+ f)).
  { intros f f' Heq. now apply String.app_inj, String.app_inj in Heq. }
  apply (NoDup_fmap_2 _).
  apply NoDup_ListNoDup, List.NoDup_filter, NoDup_ListNoDup.
  eapply Hentries. reflexivity.
Qed.

(** X4.  When the names in the root are distinct and so are the names in
    each year directory, no identifier is listed twice. *)
Theorem list_projects_no_duplicates fs self :
  distinct_names (fs_glob fs (plan_dir self)) ->
  NoDup (_list_projects fs self).
Proof.
  unfold _list_projects, sorted. intros [Hroot Hyears].
  rewrite merge_sort_Permutation.
  induction (fs_glob fs (plan_dir self)) as [|year_dir rest IH]; simpl;
    [constructor|].
  inversion Hroot as [|? ? Hfresh Hrest]; subst.
  apply NoDup_app. split; [|split].
  - apply year_projects_nodup. intros year entries ->.
    eapply Hyears. now left.
  - intros s Hs Hs'. apply list_elem_of_In in Hs, Hs'.
    apply in_year_projects in Hs as (year & entries & name & -> & Hy & _ & _ & ->).
    apply in_flat_map in Hs' as (year_dir' & Hdir' & Hs').
    apply in_year_projects in Hs'
      as (year' & entries' & name' & -> & Hy' & _ & _ & Heq).
    apply identifier_inj in Heq as [<- _]; [|assumption..].
    apply Hfresh. simpl. apply list_elem_of_In, in_map_iff.
    exists (EntDir year entries'). auto.
  - apply IH; [exact Hrest|]. intros year entries Hin.
    eapply Hyears. right. exact Hin.
Qed.

End ListingMore.

(** ** More on requests *)

Section RequestsMore.

Variable joinpath : string -> string -> string.
Variable fromtimestamp : Q -> Exn + string.

Implicit Types (fs : FileSystem) (self : FingerServer) (now : Q)
  (request rest year project host user : string).

Lemma simple_parse_fetch request year rest :
  strip request = year +:+ "/" +:+ rest ->
  isdigit year = true -> contains_char "/" rest = false ->
  Simple.parse request = FetchOne year rest.
Proof.
  intros Hform Hdigits Hrest. unfold Simple.parse. rewrite Hform.
  change ("/" +:+ rest) with (String "/" rest).
  rewrite nonempty_with_sep,
    (split_at_sep _ _ _ (isdigit_without_slash _ Hdigits)),
    (split_without _ _ Hrest), Hdigits.
  reflexivity.
Qed.

Lemma not_flagged_digit year rest :
  isdigit year = true -> startswith "-l " (year +:+ rest) = false.
Proof.
  destruct year as [|c year]; [discriminate|]. intros H. simpl in H.
  apply andb_true_iff in H as [Hc _].
  change (startswith "-l " (String c (year +:+ rest)) = false).
  unfold startswith. cbn [String.prefix].
  destruct (ascii_dec "-" c) as [<-|]; [|reflexivity].
  vm_compute in Hc. discriminate.
Qed.

Lemma selector_at year project host :
  year +:+ "/" +:+ project +:+ "@" +:+ host
  = (year +:+ String "/" project) +:+ String "@" host.
Proof. rewrite str_app_assoc. reflexivity. Qed.

Lemma selector_stripped year project :
  isdigit year = true -> rstrip project = project ->
  strip (year +:+ String "/" project) = year +:+ String "/" project.
Proof.
  intros Hdigits Hproject. unfold strip.
  rewrite (lstrip_head_not_space _ (isdigit_head_not_space _ _ Hdigits)).
  apply rstrip_app_stable; [|discriminate].
  apply rstrip_cons_stable; [reflexivity|exact Hproject].
Qed.

Lemma contains_char_at_sep (c : ascii) a b :
  contains_char c (a +:+ String c b) = true.
Proof.
  rewrite contains_char_app. cbn [contains_char].
  rewrite Ascii.eqb_refl. apply orb_true_r.
Qed.

Lemma request_at_stripped year project host :
  isdigit year = true -> rstrip host = host ->
  strip ((year +:+ String "/" project) +:+ String "@" host)
  = (year +:+ String "/" project) +:+ String "@" host.
Proof.
  intros Hdigits Hhost. rewrite str_app_assoc. unfold strip.
  rewrite (lstrip_head_not_space _ (isdigit_head_not_space _ _ Hdigits)).
  apply rstrip_app_stable; rewrite app_cons; [|discriminate].
  apply rstrip_cons_stable; [reflexivity|].
  apply rstrip_app_stable; [|discriminate].
  apply rstrip_cons_stable; [reflexivity|exact Hhost].
Qed.

Lemma win_parse_fetch request year project host :
  strip request = year +:+ "/" +:+ project +:+ "@" +:+ host ->
  isdigit year = true ->
  contains_char "@" project = false -> contains_char "@" host = false ->
  rstrip project = project ->
  Win.parse request = FetchOne year project.
Proof.
  intros Hform Hdigits Hproject Hhost Hstripped. unfold Win.parse.
  rewrite Hform, (not_flagged_digit _ _ Hdigits), selector_at.
  assert (Huser : contains_char "@" (year +:+ String "/" project) = false).
  { rewrite contains_char_app, (isdigit_without "@" _ eq_refl Hdigits).
    simpl. exact Hproject. }
  rewrite contains_char_at_sep.
  rewrite (split_at_sep _ _ _ Huser), (split_without _ _ Hhost).
  cbn [List.length Nat.eqb negb List.nth].
  rewrite (selector_stripped _ _ Hdigits Hstripped), nonempty_with_sep.
  rewrite contains_char_at_sep.
  rewrite (split1_at_sep _ _ _ (isdigit_without_slash _ Hdigits)), Hdigits.
  reflexivity.
Qed.

Lemma win_parse_list request host :
  strip request = "@" +:+ host -> contains_char "@" host = false ->
  Win.parse request = ListAll.
Proof.
  intros Hform Hhost. unfold Win.parse. rewrite Hform.
  change ("@" +:+ host) with (String "@" host).
  change (startswith "-l " (String "@" host)) with false.
  cbn [contains_char split]. rewrite Ascii.eqb_refl, (split_without _ _ Hhost).
  reflexivity.
Qed.

Lemma win_parse_flag request rest :
  strip request = "-l " +:+ rest ->
  startswith "-l " (strip rest) = false ->
  Win.parse request = long_form (Win.parse rest).
Proof.
  intros Hform Hplain. unfold Win.parse. rewrite Hform, Hplain.
  change (startswith "-l " ("-l " +:+ rest)) with
    (String.prefix "" rest).
  replace (String.prefix "" rest) with true by (destruct rest; reflexivity).
  change (drop 3 ("-l " +:+ rest)) with rest.
  destruct (contains_char "@" (strip rest)); [|reflexivity].
  destruct (negb _); [reflexivity|].
  destruct (String.eqb _ ""); [reflexivity|].
  destruct (contains_char "/" _); [|reflexivity].
  destruct (split1 "/" _) as [|year [|project [|]]]; try reflexivity.
  destruct (isdigit year); reflexivity.
Qed.

(** X5.  Every identifier of the listing can be sent back as a request: it
    is [year/name] for an all-digit [year], the simplified variant parses it
    as the fetch of [name] in [year] when [name] holds no [/], and the
    standard variant parses [identifier@host] as that fetch when neither
    [name] nor [host] holds an [@]. *)
Theorem listed_project_can_be_fetched fs self (identifier : string) :
  In identifier (_list_projects fs self) ->
  exists year name,
    identifier = year +:+ "/" +:+ name /\ isdigit year = true /\
    (contains_char "/" name = false ->
     Simple.parse identifier = FetchOne year name) /\
    (forall host,
       contains_char "@" name = false -> contains_char "@" host = false ->
       rstrip host = host ->
       Win.parse (identifier +:+ "@" +:+ host) = FetchOne year name).
Proof.
  intros Hin. apply in_list_projects in Hin
    as (year & entries & name & _ & Hdigits & _ & Hsuffix & ->).
  apply endswith_spec in Hsuffix as [stem ->].
  assert (Hname : rstrip (stem +:+ ".project") = stem +:+ ".project")
    by (apply rstrip_app_stable; [reflexivity|discriminate]).
  exists year, (stem +:+ ".project"). repeat split; try assumption.
  - intros Hslash. apply simple_parse_fetch; try assumption.
    apply (selector_stripped _ _ Hdigits Hname).
  - intros host Hat Hhost Hstripped.
    apply (win_parse_fetch _ year (stem +:+ ".project") host); try assumption.
    rewrite selector_at. apply (request_at_stripped _ _ _ Hdigits Hstripped).
Qed.

(** X6.  In the standard variant the flag [-l] changes the level of detail
    and nothing else: a request that is [-l ] followed by [rest] is parsed as
    the detailed form of what [rest] alone is parsed as, when [rest] does not
    start with a flag of its own. *)
Theorem long_flag_only_adds_detail request rest :
  strip request = "-l " +:+ rest ->
  startswith "-l " (strip rest) = false ->
  Win.parse request = long_form (Win.parse rest).
Proof.
  intros Hform Hplain. unfold Win.parse. rewrite Hform, Hplain.
  change (startswith "-l " ("-l " +:+ rest)) with (String.prefix "" rest).
  replace (String.prefix "" rest) with true by (destruct rest; reflexivity).
  change (drop 3 ("-l " +:+ rest)) with rest.
  destruct (contains_char "@" (strip rest)); [|reflexivity].
  destruct (negb _); [reflexivity|].
  destruct (String.eqb _ ""); [reflexivity|].
  destruct (contains_char "/" _); [|reflexivity].
  destruct (split1 "/" _) as [|year [|project [|]]]; try reflexivity.
  destruct (isdigit year); reflexivity.
Qed.

End RequestsMore.

(** ** More on the answers *)

Section Answers.

Variable joinpath : string -> string -> string.
Variable fromtimestamp : Q -> Exn + string.

Implicit Types (fs : FileSystem) (self : FingerServer) (now : Q)
  (request year project content : string).

(** X7.  White space around a request does not matter: both variants answer
    the stripped request as they answer the request. *)
Theorem process_request_ignores_outer_space fs now self request :
  Simple.process_request joinpath fs now self (strip request)
  = Simple.process_request joinpath fs now self request /\
  Win.process_request joinpath fromtimestamp fs now self (strip request)
  = Win.process_request joinpath fromtimestamp fs now self request.
Proof.
  unfold Simple.process_request, Win.process_request.
  rewrite strip_idem. split; reflexivity.
Qed.

Lemma contains_char_lstrip (c : ascii) (s : string) :
  contains_char c s = false -> contains_char c (lstrip s) = false.
Proof.
  induction s as [|d s IH]; simpl; [reflexivity|].
  intros H. destruct (isspace_char d); [|exact H].
  apply orb_false_iff in H as [_ H]. auto.
Qed.

Lemma contains_char_rstrip (c : ascii) (s : string) :
  contains_char c s = false -> contains_char c (rstrip s) = false.
Proof.
  induction s as [|d s IH]; simpl; [reflexivity|].
  intros H. apply orb_false_iff in H as [Hd H]. specialize (IH H).
  destruct (rstrip s); [destruct (isspace_char d)|]; simpl;
    rewrite ?Hd; auto.
Qed.

Lemma contains_char_drop (c : ascii) (n : nat) (s : string) :
  contains_char c s = false -> contains_char c (drop n s) = false.
Proof.
  revert s. induction n as [|n IH]; intros [|d s]; simpl; auto.
  intros H. apply orb_false_iff in H as [_ H]. auto.
Qed.

(** X8.  The simplified variant answers every request that is not empty and
    holds no [/] with its help text, the server unchanged; so are answered
    the forms [@hostname] and [user@hostname] that this help text names. *)
Theorem simple_rejects_requests_without_slash fs now self request :
  strip request <> "" ->
  contains_char "/" (strip request) = false ->
  Simple.process_request joinpath fs now self request
  = (Simple.invalid_text, self).
Proof.
  intros Hne Hslash. unfold Simple.process_request.
  apply String.eqb_neq in Hne. rewrite Hne, (split_without _ _ Hslash).
  reflexivity.
Qed.

(** X9.  The standard variant answers every request without an [@] with its
    usage text, the server unchanged: the empty request, a lone [-l], and the
    bare [year/project] that the simplified variant fetches. *)
Theorem win_rejects_requests_without_at fs now self request :
  contains_char "@" (strip request) = false ->
  Win.process_request joinpath fromtimestamp fs now self request
  = (Ok Win.usage_text, self).
Proof.
  intros Hat. unfold Win.process_request.
  destruct (startswith "-l " (strip request)).
  - unfold strip at 1.
    rewrite (contains_char_rstrip _ _
               (contains_char_lstrip _ _ (contains_char_drop _ 3 _ Hat))).
    reflexivity.
  - rewrite Hat. reflexivity.
Qed.

(** X10.  Answering a request changes neither [plan_dir] nor [cache_time];
    a request that is not a fetch leaves the whole server as it was, and a
    fetch changes at most the cache entry of the path it resolves to. *)
Theorem process_request_touches_one_entry fs now self request :
  let simple := (Simple.process_request joinpath fs now self request).2 in
  let win :=
    (Win.process_request joinpath fromtimestamp fs now self request).2 in
  let only_at year project (after : FingerServer) :=
    forall other,
      other <> joinpath (joinpath (plan_dir self) year) project ->
      cache after !! other = cache self !! other in
  (plan_dir simple = plan_dir self /\ cache_time simple = cache_time self /\
   match Simple.parse request with
   | FetchOne year project => only_at year project simple
   | _ => simple = self
   end) /\
  (plan_dir win = plan_dir self /\ cache_time win = cache_time self /\
   match Win.parse request with
   | FetchOne year project | FetchOneDetailed year project =>
       only_at year project win
   | _ => win = self
   end).
Proof.
  cbv zeta. rewrite simple_process_request_respond, win_process_request_respond.
  split.
  - destruct (Simple.parse request) as [| |year project|year project|why];
      simpl; auto.
    pose proof (read_plan_dir fs now self
                  (joinpath (joinpath (plan_dir self) year) project)) as Hdir.
    pose proof (read_cache_time fs now self
                  (joinpath (joinpath (plan_dir self) year) project)) as Httl.
    pose proof (fun other => read_other_path fs now self
                  (joinpath (joinpath (plan_dir self) year) project) other)
      as Hother.
    destruct (_read_project_file _ _ _ _) as [[content self'] ops].
    destruct (truthy content); simpl in *; auto.
  - destruct (Win.parse request) as [| |year project|year project|[|]];
      simpl; auto;
      pose proof (read_plan_dir fs now self
                    (joinpath (joinpath (plan_dir self) year) project)) as Hdir;
      pose proof (read_cache_time fs now self
                    (joinpath (joinpath (plan_dir self) year) project)) as Httl;
      pose proof (fun other => read_other_path fs now self
                    (joinpath (joinpath (plan_dir self) year) project) other)
        as Hother;
      destruct (_read_project_file _ _ _ _) as [[content self'] ops];
      destruct (truthy content); simpl in *; auto.
Qed.

(** X11.  A detailed fetch never drops the content it was served: the
    answer is a header followed by the content and a newline.  When [stat]
    and the date could be had the header is the metadata (project,
    location, size, date, then ["Content:"]); when [stat] or the date
    raised [e] it is the line ["Error reading project metadata: e"] and an
    empty line. *)
Theorem detailed_fetch_keeps_content fs now self request year project content :
  Win.parse request = FetchOneDetailed year project ->
  truthy (_read_project_file fs now self
            (joinpath (joinpath (plan_dir self) year) project)).1.1
  = Some content ->
  let project_path := joinpath (joinpath (plan_dir self) year) project in
  let response :=
    (Win.process_request joinpath fromtimestamp fs now self request).1 in
  (forall stats modified,
     fs_stat fs project_path = inr stats ->
     fromtimestamp (st_mtime stats) = inr modified ->
     response
     = Ok (("Project: " +:+ project +:+ nl +:+
            "Location: " +:+ year +:+ "/" +:+ project +:+ nl +:+
            "Size: " +:+ str_of_N (st_size stats) +:+ " bytes" +:+ nl +:+
            "Modified: " +:+ modified +:+ nl +:+
            nl +:+ "Content:" +:+ nl) +:+ content +:+ nl)) /\
  (forall e,
     fs_stat fs project_path = inl e \/
     (exists stats,
        fs_stat fs project_path = inr stats /\
        fromtimestamp (st_mtime stats) = inl e) ->
     response
     = Ok ("Error reading project metadata: " +:+ e +:+ nl +:+ nl +:+ content
           +:+ nl)) /\
  (exists header,
     response = Ok (header +:+ content +:+ nl) /\
     (startswith ("Project: " +:+ project +:+ nl) header = true \/
      startswith "Error reading project metadata: " header = true)).
Proof.
  intros Hparse Hserved project_path response. subst response.
  rewrite win_process_request_respond, Hparse. simpl.
  fold project_path in Hserved |- *.
  destruct (_read_project_file _ _ _ _) as [[served self'] ops].
  simpl in Hserved. rewrite Hserved. simpl. unfold Win.detailed_project.
  assert (Herror : forall e,
    exists header,
      Ok ("Error reading project metadata: " +:+ e +:+ nl +:+ nl +:+ content
          +:+ nl) = Ok (header +:+ content +:+ nl) /\
      (startswith ("Project: " +:+ project +:+ nl) header = true \/
       startswith "Error reading project metadata: " header = true)).
  { intros e. exists ("Error reading project metadata: " +:+ e +:+ nl +:+ nl).
    split; [|right; apply prefix_app].
    rewrite !str_app_assoc. reflexivity. }
  destruct (fs_stat fs project_path) as [e|stats] eqn:Hstat.
  { split; [|split; [|apply Herror]].
    - intros stats modified Hstats. discriminate.
    - intros e' [He|(stats & Hstats & _)]; [|discriminate].
      injection He as <-. reflexivity. }
  destruct (fromtimestamp (st_mtime stats)) as [e|modified] eqn:Hdate.
  { split; [|split; [|apply Herror]].
    - intros stats' modified Hstats Hmodified.
      injection Hstats as <-. rewrite Hdate in Hmodified. discriminate.
    - intros e' [He|(stats' & Hstats & He)]; [discriminate|].
      injection Hstats as <-. rewrite Hdate in He.
      injection He as <-. reflexivity. }
  split; [|split].
  - intros stats' modified' Hstats Hmodified.
    injection Hstats as <-. rewrite Hdate in Hmodified.
    injection Hmodified as <-. reflexivity.
  - intros e' [He|(stats' & Hstats & He)]; [discriminate|].
    injection Hstats as <-. rewrite Hdate in He. discriminate.
  - assert (Hhead : forall rest,
      "Project: " +:+ project +:+ nl +:+ rest
      = ("Project: " +:+ project +:+ nl) +:+ rest)
      by (intros rest; rewrite !str_app_assoc; reflexivity).
    eexists. split; [reflexivity|]. left.
    rewrite Hhead. apply prefix_app.
Qed.

(** X12.  An existing, readable file that is empty is stored in the cache
    like any other and yet answered as not found, by both variants. *)
Theorem empty_file_is_answered_not_found fs now self request year project :
  let project_path := joinpath (joinpath (plan_dir self) year) project in
  no_fresh_entry now self project_path ->
  fs_file fs project_path = Regular "" ->
  (Simple.parse request = FetchOne year project ->
   let result := Simple.process_request joinpath fs now self request in
   result.1 = not_found_text year project /\
   cache result.2 !! project_path = Some (now, "")) /\
  (Win.parse request = FetchOne year project ->
   let result :=
     Win.process_request joinpath fromtimestamp fs now self request in
   result.1 = Ok (not_found_text year project) /\
   cache result.2 !! project_path = Some (now, "")).
Proof.
  intros project_path Hstale Hfile.
  pose proof (read_miss fs now self project_path Hstale) as Hread.
  rewrite Hfile in Hread. fold project_path in Hread.
  split; intros Hparse result; subst result.
  - rewrite simple_process_request_respond, Hparse. simpl.
    fold project_path. rewrite Hread. simpl.
    split; [reflexivity|apply lookup_insert_eq].
  - rewrite win_process_request_respond, Hparse. simpl.
    fold project_path. rewrite Hread. simpl.
    split; [reflexivity|apply lookup_insert_eq].
Qed.

Lemma for_each_Forall2 {A B : Type} (f : A -> Result B) (l : list A)
    (ys : list B) :
  for_each f l = Ok ys -> Forall2 (fun x y => f x = Ok y) l ys.
Proof.
  revert ys. induction l as [|x r IH]; simpl; intros ys H.
  - injection H as <-. constructor.
  - destruct (f x) as [y|e] eqn:Hx; simpl in H; [|discriminate].
    destruct (for_each f r) as [ys'|e] eqn:Hr; simpl in H; [|discriminate].
    injection H as <-. constructor; auto.
Qed.

Lemma detail_line_starts fs self (proj line : string) :
  Win.detail_line joinpath fromtimestamp fs self proj = Ok line ->
  startswith (ljust 30 proj) line = true.
Proof.
  unfold Win.detail_line.
  destruct (split "/" proj) as [|year [|name [|]]]; try discriminate.
  intros H. injection H as <-.
  destruct (fs_stat fs _) as [e|stats];
    [|destruct (fromtimestamp (st_mtime stats))]; apply prefix_app.
Qed.

(** X13.  The detailed listing has one line for each identifier of the
    plain listing, in the same order, and each line starts with its
    identifier padded to 30 columns, whether [stat] succeeded or not, when
    no name listed in a year directory holds a [/]. *)
Theorem detailed_listing_lines fs now self request :
  names_without_slash fs self = true ->
  Win.parse request = ListAllDetailed ->
  exists lines,
    Win.process_request joinpath fromtimestamp fs now self request
    = (Ok (("Project listing (detailed):" +:+ nl) +:+ join nl lines +:+ nl),
       self) /\
    Forall2 (fun proj line => startswith (ljust 30 proj) line = true)
      (_list_projects fs self) lines.
Proof.
  intros Hnames Hparse.
  rewrite win_process_request_respond, Hparse. unfold Win.respond.
  destruct (for_each_ok (Win.detail_line joinpath fromtimestamp fs self)
              (_list_projects fs self)) as [lines Hlines].
  { intros proj. apply detail_line_ok, Hnames. }
  rewrite Hlines. exists lines. split; [reflexivity|].
  apply for_each_Forall2 in Hlines.
  eapply Forall2_impl; [exact Hlines|].
  intros proj line. apply detail_line_starts.
Qed.

End Answers.

(** ** More on connections *)

Section HandlerMore.

Import Connection.

Context {Server : Type}.
Variable decode : list Byte.byte -> Result string.
Variable encode : string -> list Byte.byte.
Variable process_request : string -> Server -> Result string * Server.

Ltac unfold_handler :=
  unfold run, handle_client, try_finally, try_except, call, emit, lift,
    process, mbind, IO_bind, Result_bind;
  cbn [fst snd].

Ltac closing writer :=
  destruct (close writer) as [[]|?]; cbn;
  [destruct (wait_closed writer) as [[]|?]; cbn|].

Ltac until_close trace :=
  match trace with
  | EvClose :: _ => constr:(@nil Event)
  | ?ev :: ?rest => let before := until_close rest in constr:(ev :: before)
  end.

(** Every path through the handler, up to the closing calls. *)
Ltac handler_cases reader writer self :=
  unfold_handler;
  destruct (read reader 1024) as [data|?]; cbn;
  [destruct (decode data) as [message|?]; cbn;
   [destruct (get_extra_info writer "peername") as [addr|?]; cbn;
    [destruct (process_request (strip message) self) as [[response|?] self'];
     cbn;
     [destruct (write writer (encode response)) as [[]|?]; cbn;
      [destruct (drain writer) as [[]|?]; cbn|]|]|]|]|].

Lemma handler_written (reader : StreamReader) (writer : StreamWriter)
    (self : Server) :
  List.filter is_write
    (run decode encode process_request reader writer self).2.2
  = written decode encode process_request reader writer self.
Proof.
  unfold written, request_of. handler_cases reader writer self;
    closing writer; reflexivity.
Qed.

(** X14.  What the handler writes is the encoded response to the decoded,
    stripped request, in one [write]; it writes nothing when the read, the
    decoding, [get_extra_info] or the processing raised. *)
Theorem handle_client_writes_the_response (reader : StreamReader)
    (writer : StreamWriter) (self : Server) :
  List.filter is_write
    (run decode encode process_request reader writer self).2.2
  = written decode encode process_request reader writer self.
Proof.
  unfold written, request_of. unfold_handler.
  destruct (read reader 1024) as [data|e]; cbn;
    [|closing writer; reflexivity].
  destruct (decode data) as [message|e]; cbn;
    [|closing writer; reflexivity].
  destruct (get_extra_info writer "peername") as [addr|e]; cbn;
    [|closing writer; reflexivity].
  destruct (process_request (strip message) self) as [[response|e] self'];
    cbn; [|closing writer; reflexivity].
  destruct (write writer (encode response)) as [[]|e]; cbn;
    [|closing writer; reflexivity].
  destruct (drain writer) as [[]|e]; cbn; closing writer; reflexivity.
Qed.

(** X15.  Closing comes last: the trace is what came before, without any
    [close] and with at most one [write], then [close], then [wait_closed]
    if [close] raised nothing.  Nothing is written to a closed writer. *)
Theorem handle_client_closes_last (reader : StreamReader)
    (writer : StreamWriter) (self : Server) :
  exists before,
    (run decode encode process_request reader writer self).2.2
    = before ++ EvClose ::
        match close writer with
        | Ok _ => [EvWaitClosed]
        | Raise _ => []
        end /\
    closes before = 0%nat /\ (writes before <= 1)%nat.
Proof.
  handler_cases reader writer self; closing writer;
    match goal with
    | |- exists before, ?trace = _ /\ _ =>
        let before := until_close trace in
        exists before; repeat split; cbn; lia
    end.
Qed.

(** X16.  The handler raises what [writer.close()] or
    [writer.wait_closed()] raises, and nothing else: the [finally] block is
    not covered by the [except] clause, and what the rest raised is caught. *)
Theorem handle_client_raises_what_closing_raises (reader : StreamReader)
    (writer : StreamWriter) (self : Server) :
  (run decode encode process_request reader writer self).1
  = (_ ← close writer; wait_closed writer).
Proof.
  handler_cases reader writer self;
    destruct (close writer) as [[]|?]; reflexivity.
Qed.

(** X17.  What the processing did to the server stays done, whatever the
    writing and the closing do afterwards; a request that is never processed
    leaves the server as it was. *)
Theorem handle_client_keeps_the_server (reader : StreamReader)
    (writer : StreamWriter) (self : Server) :
  (run decode encode process_request reader writer self).2.1
  = match request_of decode reader writer with
    | Ok request => (process_request request self).2
    | Raise _ => self
    end.
Proof.
  unfold request_of. handler_cases reader writer self;
    closing writer; reflexivity.
Qed.

End HandlerMore.

(** ** The client and the servers *)

Section ClientRequests.

Implicit Types (host query year project s a b : string) (long_format : bool).

Lemma head_not_space_app a b : head_not_space a -> a <> "" -> head_not_space (a +:+ b).
Proof. destruct a; [congruence|]. intros H _. exact H. Qed.

Lemma wire_query_form host query long_format :
  Client.wire_query host query long_format
  = ((if long_format then "-l " +:+ query else query) +:+ String "@" host)
    +:+ String "013"%char nl.
Proof. unfold Client.wire_query. rewrite !str_app_assoc. reflexivity. Qed.

(** The server strips the line end the client appends. *)
Lemma wire_query_stripped host query long_format :
  head_not_space (if long_format then "-l " +:+ query else query) ->
  rstrip host = host ->
  strip (Client.wire_query host query long_format)
  = (if long_format then "-l " +:+ query else query) +:+ String "@" host.
Proof.
  intros Hhead Hhost. rewrite wire_query_form.
  set (q := if long_format then "-l " +:+ query else query) in *.
  assert (Hat : head_not_space (q +:+ String "@" host))
    by (destruct q; [reflexivity|exact Hhead]).
  unfold strip. rewrite lstrip_head_not_space.
  - rewrite rstrip_app_spaces by reflexivity.
    apply rstrip_app_stable; [|discriminate].
    apply rstrip_cons_stable; [reflexivity|exact Hhost].
  - apply head_not_space_app; [exact Hat|].
    destruct q; discriminate.
Qed.

Lemma at_host_stripped host :
  rstrip host = host -> strip (String "@" host) = String "@" host.
Proof.
  intros Hhost. unfold strip. rewrite lstrip_head_not_space by reflexivity.
  apply rstrip_cons_stable; [reflexivity|exact Hhost].
Qed.

(** X18.  What the client sends for an empty query is, for the standard
    variant, the listing, detailed with [long_format], when the host name
    holds no [@] and does not end in white space. *)
Theorem client_lists_on_standard_server host long_format :
  contains_char "@" host = false ->
  rstrip host = host ->
  Win.parse (Client.wire_query host "" long_format)
  = if long_format then ListAllDetailed else ListAll.
Proof.
  intros Hat Hhost.
  assert (Hlist : Win.parse (String "@" host) = ListAll)
    by (apply (win_parse_list _ host); [apply at_host_stripped|]; assumption).
  destruct long_format.
  - rewrite (win_parse_flag _ (String "@" host)).
    + rewrite Hlist. reflexivity.
    + rewrite wire_query_stripped; [reflexivity|reflexivity|exact Hhost].
    + rewrite at_host_stripped by exact Hhost. reflexivity.
  - apply (win_parse_list _ host); [|exact Hat].
    rewrite wire_query_stripped; [reflexivity|exact I|exact Hhost].
Qed.

(** X19.  What the client sends for the query [year/project] is, for the
    standard variant, the fetch of [project] in [year], detailed with
    [long_format], when [year] is all digits, neither [project] nor the host
    name holds an [@], and neither ends in white space. *)
Theorem client_fetches_on_standard_server host year project long_format :
  isdigit year = true ->
  contains_char "@" project = false -> rstrip project = project ->
  contains_char "@" host = false -> rstrip host = host ->
  Win.parse (Client.wire_query host (year +:+ "/" +:+ project) long_format)
  = if long_format then FetchOneDetailed year project
    else FetchOne year project.
Proof.
  intros Hdigits Hproject Hstripped Hat Hhost.
  assert (Hrest : strip ((year +:+ String "/" project) +:+ String "@" host)
                  = year +:+ "/" +:+ project +:+ "@" +:+ host)
    by (rewrite selector_at; apply request_at_stripped; assumption).
  assert (Hfetch : Win.parse ((year +:+ String "/" project) +:+ String "@" host)
                   = FetchOne year project)
    by (apply (win_parse_fetch _ year project host); assumption).
  destruct long_format.
  - rewrite (win_parse_flag _ ((year +:+ String "/" project) +:+ String "@" host)).
    + rewrite Hfetch. reflexivity.
    + rewrite wire_query_stripped; [|reflexivity|exact Hhost].
      rewrite str_app_assoc. reflexivity.
    + rewrite Hrest. apply not_flagged_digit, Hdigits.
  - apply (win_parse_fetch _ year project host); try assumption.
    rewrite wire_query_stripped, selector_at; [reflexivity| |exact Hhost].
    apply isdigit_head_not_space, Hdigits.
Qed.

Lemma contains_char_lstrip_true (c : ascii) s :
  isspace_char c = false ->
  contains_char c s = true -> contains_char c (lstrip s) = true.
Proof.
  intros Hc. induction s as [|d s IH]; simpl; [discriminate|].
  intros H. destruct (isspace_char d) eqn:Hd; [|exact H].
  apply orb_true_iff in H as [H|H]; [|auto].
  apply Ascii.eqb_eq in H. congruence.
Qed.

Lemma contains_char_rstrip_true (c : ascii) s :
  isspace_char c = false ->
  contains_char c s = true -> contains_char c (rstrip s) = true.
Proof.
  intros Hc. induction s as [|d s IH]; simpl; [discriminate|].
  intros H. apply orb_true_iff in H as [H|H].
  - apply Ascii.eqb_eq in H. subst d.
    destruct (rstrip s); [rewrite Hc|]; simpl;
      rewrite Ascii.eqb_refl; reflexivity.
  - specialize (IH H). destruct (rstrip s); [discriminate|].
    cbn [contains_char] in *. rewrite IH. apply orb_true_r.
Qed.

Lemma wire_query_has_at host query long_format :
  contains_char "@" (strip (Client.wire_query host query long_format)) = true.
Proof.
  unfold strip.
  apply contains_char_rstrip_true, contains_char_lstrip_true; try reflexivity.
  rewrite wire_query_form, str_app_assoc. apply contains_char_at_sep.
Qed.

(** X20.  The client does not fit the simplified variant.  When the host
    name holds no [/]: a query without [/], the empty one among them, is
    answered as invalid; the query [year/project] is the fetch of the name
    [project@host]; and in long format it is invalid. *)
Theorem client_on_simplified_server host :
  contains_char "/" host = false ->
  rstrip host = host ->
  (forall query long_format,
     contains_char "/" query = false ->
     Simple.parse (Client.wire_query host query long_format)
     = Invalid BadSelector) /\
  (forall year project,
     isdigit year = true -> contains_char "/" project = false ->
     Simple.parse (Client.wire_query host (year +:+ "/" +:+ project) false)
     = FetchOne year (project +:+ "@" +:+ host) /\
     Simple.parse (Client.wire_query host (year +:+ "/" +:+ project) true)
     = Invalid BadSelector).
Proof.
  intros Hslash Hhost. split.
  - intros query long_format Hquery. unfold Simple.parse.
    pose proof (wire_query_has_at host query long_format) as Hat.
    assert (Hnone : contains_char "/"
                      (strip (Client.wire_query host query long_format)) = false).
    { unfold strip. apply contains_char_rstrip, contains_char_lstrip.
      unfold Client.wire_query. rewrite !contains_char_app, Hslash.
      destruct long_format; [rewrite contains_char_app|]; rewrite Hquery;
        reflexivity. }
    destruct (strip (Client.wire_query host query long_format)) eqn:Hs;
      [discriminate|].
    rewrite (split_without _ _ Hnone). reflexivity.
  - intros year project Hdigits Hproject. split.
    + apply simple_parse_fetch; [|exact Hdigits|].
      * rewrite wire_query_stripped;
          [|apply isdigit_head_not_space, Hdigits|exact Hhost].
        rewrite !str_app_assoc. reflexivity.
      * rewrite contains_char_app, Hproject. exact Hslash.
    + unfold Simple.parse.
      rewrite wire_query_stripped; [|reflexivity|exact Hhost].
      rewrite <- (str_app_assoc "-l " year), !str_app_assoc.
      rewrite <- (str_app_assoc "-l " year).
      change ("/" +:+ project +:+ String "@" host)
        with (String "/" (project +:+ String "@" host)).
      rewrite nonempty_with_sep, split_at_sep, split_without.
      * reflexivity.
      * rewrite contains_char_app, Hproject. exact Hslash.
      * rewrite contains_char_app.
        rewrite (isdigit_without_slash _ Hdigits). reflexivity.
Qed.

End ClientRequests.

(** ** The client's exchange *)

Section ClientExchange.

Import Client.

Variable decode : list Byte.byte -> Result string.
Variable encode : string -> list Byte.byte.

Implicit Types (s : Socket) (events : list Event).

Lemma count_app f events events' :
  count f (events ++ events') = (count f events + count f events')%nat.
Proof. unfold count. rewrite List.filter_app, List.length_app. reflexivity. Qed.

Lemma recv_loop_events script chunks :
  count is_close (recv_loop script chunks).2 = 0%nat /\
  count is_error (recv_loop script chunks).2 = 0%nat.
Proof.
  revert chunks. induction script as [|[[|b chunk]|err] rest IH]; intros chunks;
    simpl; auto.
  specialize (IH (chunks ++ [b :: chunk])).
  destruct (recv_loop rest _) as [r events]. exact IH.
Qed.

Lemma log_failure_events host port err :
  count is_close (log_failure host port err) = 0%nat /\
  (1 <= count is_error (log_failure host port err))%nat.
Proof. destruct err; simpl; split; unfold count; simpl; lia. Qed.

Lemma exchange_events host query port long_format s :
  count is_close (exchange decode encode host query port long_format s).2 = 0%nat /\
  count is_error (exchange decode encode host query port long_format s).2 = 0%nat.
Proof.
  unfold exchange.
  destruct (connect s host port); [|auto].
  destruct (send s _); [|auto].
  pose proof (recv_loop_events (recv_script s) []) as [Hclose Herror].
  destruct (recv_loop _ _) as [received events]. simpl in *.
  unfold count in *. simpl. auto.
Qed.

Lemma query_report host query port long_format s :
  let result := query_finger_server decode encode host query port long_format s in
  count is_close result.2
  = match create s with Returns _ => 1%nat | Raises _ => 0%nat end /\
  (result.1 = None <-> (1 <= count is_error result.2)%nat).
Proof.
  cbv zeta. unfold query_finger_server.
  destruct (create s) as [[]|err].
  - pose proof (exchange_events host query port long_format s)
      as [Hclose Herror].
    destruct (exchange _ _ _ _ _ _ _) as [[text|err] events];
      cbn [fst snd] in *.
    + change (EvCreate :: events ++ [EvCloseSocket])
        with ([EvCreate] ++ events ++ [EvCloseSocket]).
      rewrite !count_app, Hclose, Herror.
      split; [reflexivity|]. split; [discriminate|].
      unfold count. simpl. lia.
    + pose proof (log_failure_events host port err) as [Hlog_close Hlog_error].
      change (EvCreate :: events ++ [EvCloseSocket] ++ log_failure host port err)
        with ([EvCreate] ++ events ++ [EvCloseSocket]
              ++ log_failure host port err).
      rewrite !count_app, Hclose, Herror, Hlog_close.
      split; [reflexivity|]. split; [|reflexivity].
      intros _. unfold count at 1 2. simpl. exact Hlog_error.
  - pose proof (log_failure_events host port err) as [Hlog_close Hlog_error].
    cbn [fst snd].
    change (EvCreate :: log_failure host port err)
      with ([EvCreate] ++ log_failure host port err).
    rewrite !count_app, Hlog_close.
    split; [reflexivity|]. split; [|reflexivity].
    intros _. unfold count at 1. simpl. exact Hlog_error.
Qed.

(** X21.  [query_finger_server] closes the socket exactly once when it
    could be created, on every path, and returns [None] exactly when it
    logged an error. *)
Theorem query_closes_and_reports host query port long_format s :
  let result := query_finger_server decode encode host query port long_format s in
  count is_close result.2
  = match create s with Returns _ => 1%nat | Raises _ => 0%nat end /\
  (result.1 = None <-> (1 <= count is_error result.2)%nat).
Proof.
  cbv zeta. unfold query_finger_server.
  pose proof (exchange_events host query port long_format s)
    as [Hclose Herror].
  destruct (create s) as [[]|refused];
    [destruct (exchange _ _ _ _ _ _ _) as [[text|err] events]|];
    cbn [fst snd] in *.
  - change (EvCreate :: events ++ [EvCloseSocket])
      with ([EvCreate] ++ events ++ [EvCloseSocket]).
    rewrite !count_app, Hclose, Herror.
    split; [reflexivity|]. split; [discriminate|].
    unfold count. simpl. lia.
  - destruct (log_failure_events host port err) as [Hlog_close Hlog_error].
    change (EvCreate :: events ++ [EvCloseSocket] ++ log_failure host port err)
      with ([EvCreate] ++ events ++ [EvCloseSocket]
            ++ log_failure host port err).
    rewrite !count_app, Hclose, Herror, Hlog_close.
    split; [reflexivity|]. split; [|reflexivity].
    intros _. unfold count at 1 2. simpl. exact Hlog_error.
  - destruct (log_failure_events host port refused)
      as [Hlog_close Hlog_error].
    change (EvCreate :: log_failure host port refused)
      with ([EvCreate] ++ log_failure host port refused).
    rewrite !count_app, Hlog_close.
    split; [reflexivity|]. split; [|reflexivity].
    intros _. unfold count at 1. simpl. exact Hlog_error.
Qed.

Lemma recv_loop_until_empty (chunks : list (list Byte.byte)) rest acc :
  Forall (fun chunk => chunk <> []) chunks ->
  recv_loop (map Returns chunks ++ Returns [] :: rest) acc
  = (Returns (acc ++ chunks),
     List.repeat (EvRecv 4096) (S (List.length chunks))).
Proof.
  intros Hall. revert acc.
  induction Hall as [|chunk chunks Hne _ IH]; intros acc; simpl.
  - rewrite app_nil_r. reflexivity.
  - destruct chunk as [|b chunk]; [congruence|].
    rewrite IH, <- app_assoc. reflexivity.
Qed.

(** X22.  When the socket raises nothing and the server sends non-empty
    chunks and then closes, the client sends one message, the encoded
    query, and returns the decoding of the chunks joined, or [None] if that
    cannot be decoded; it asks for nothing after the empty chunk. *)
Theorem query_returns_what_was_received host query port long_format s
    (chunks : list (list Byte.byte)) rest :
  create s = Returns tt ->
  connect s host port = Returns tt ->
  send s (encode (wire_query host query long_format)) = Returns tt ->
  recv_script s = map Returns chunks ++ Returns [] :: rest ->
  Forall (fun chunk => chunk <> []) chunks ->
  let result := query_finger_server decode encode host query port long_format s in
  result.1 = match decode (List.concat chunks) with
             | Ok text => Some text
             | Raise _ => None
             end /\
  List.filter (fun ev => negb (is_error ev)) result.2
  = [EvCreate; EvConnect host port;
     EvSend (encode (wire_query host query long_format))]
    ++ List.repeat (EvRecv 4096) (S (List.length chunks)) ++ [EvCloseSocket].
Proof.
  intros Hcreate Hconnect Hsend Hscript Hchunks. cbv zeta.
  unfold query_finger_server, exchange.
  rewrite Hcreate, Hconnect, Hsend, Hscript.
  rewrite (recv_loop_until_empty _ _ _ Hchunks). cbn [app].
  assert (Hrecv : forall n tail,
    List.filter (fun ev => negb (is_error ev))
      (List.repeat (EvRecv 4096) n ++ tail)
    = List.repeat (EvRecv 4096) n
      ++ List.filter (fun ev => negb (is_error ev)) tail).
  { intros n tail. induction n as [|n IH]; simpl; [reflexivity|].
    rewrite IH. reflexivity. }
  destruct (decode (List.concat chunks)) as [text|e]; cbn [fst snd];
    (split; [reflexivity|]);
    cbn [List.filter is_error negb];
    change (EvRecv 4096 :: List.repeat (EvRecv 4096) (List.length chunks))
      with (List.repeat (EvRecv 4096) (S (List.length chunks)));
    rewrite (Hrecv (S (List.length chunks))); reflexivity.
Qed.

(** X23.  [main] exits with 1 and prints nothing whenever an error was
    logged; and also, with no error logged, when the exchange went well but
    the server closed without sending anything. *)
Theorem main_exit_code (args : Args) s :
  let result := main decode encode args s in
  ((1 <= count is_error result.2)%nat ->
   result.1.1 = 1%Z /\ result.1.2 = []) /\
  (create s = Returns tt ->
   connect s (host args) (port args) = Returns tt ->
   send s (encode (wire_query (host args) (query args) (long args)))
   = Returns tt ->
   (exists rest, recv_script s = Returns [] :: rest) ->
   decode [] = Ok "" ->
   result.1.1 = 1%Z /\ result.1.2 = [] /\ count is_error result.2 = 0%nat).
Proof.
  cbv zeta. unfold main.
  set (started := _ ++ _).
  assert (Hstarted : count is_error started = 0%nat).
  { subst started. destruct (verbose args), (String.eqb (query args) "");
      reflexivity. }
  clearbody started. split.
  - intros Herror.
    pose proof (query_report (host args) (query args) (port args)
                  (long args) s) as Hreport.
    cbv zeta in Hreport. destruct Hreport as [_ Hnone].
    destruct (query_finger_server _ _ _ _ _ _ _) as [response events].
    simpl in Hnone.
    assert (Hevents : (1 <= count is_error events)%nat).
    { destruct (truthy response); simpl in Herror;
        rewrite count_app, Hstarted in Herror; exact Herror. }
    apply Hnone in Hevents. subst response. auto.
  - intros Hcreate Hconnect Hsend [rest Hscript] Hdecode.
    unfold query_finger_server, exchange.
    rewrite Hcreate, Hconnect, Hsend, Hscript. simpl. rewrite Hdecode. simpl.
    repeat split. rewrite count_app, Hstarted. reflexivity.
Qed.

End ClientExchange.

(** ** The variants together, and the order of enumeration *)

Section Together.

Variable joinpath : string -> string -> string.
Variable fromtimestamp : Q -> Exn + string.

Implicit Types (fs : FileSystem) (self : FingerServer) (now : Q).

Lemma filter_Permutation {A : Type} (f : A -> bool) (l l' : list A) :
  Permutation l l' -> Permutation (List.filter f l) (List.filter f l').
Proof.
  induction 1 as [|x l l' _ IH|x y l|l l' l'' _ IH _ IH']; simpl.
  - constructor.
  - destruct (f x); [constructor|]; exact IH.
  - destruct (f x), (f y); try reflexivity. constructor.
  - etransitivity; eassumption.
Qed.

Lemma year_projects_same (e e' : DirEntry) :
  same_entry e e' -> Permutation (year_projects e) (year_projects e').
Proof.
  destruct e as [name|name entries], e' as [name'|name' entries']; simpl;
    try contradiction; [reflexivity|].
  intros [<- Hperm]. destruct (isdigit name); [|reflexivity].
  apply Permutation_map, filter_Permutation, Hperm.
Qed.

Lemma flat_map_same (root root' : list DirEntry) :
  same_root root root' ->
  Permutation (flat_map year_projects root) (flat_map year_projects root').
Proof.
  intros (reordered & Hsame & Hperm).
  transitivity (flat_map year_projects reordered).
  - clear Hperm.
    induction Hsame as [|e e' l l' He _ IH]; simpl; [reflexivity|].
    apply Permutation_app; [apply year_projects_same, He|exact IH].
  - apply Permutation_flat_map, Hperm.
Qed.

(** X24.  The listing does not depend on the order in which the filesystem
    enumerates the root and the year directories. *)
Theorem listing_ignores_enumeration_order fs fs' self self' :
  same_root (fs_glob fs (plan_dir self)) (fs_glob fs' (plan_dir self')) ->
  _list_projects fs self = _list_projects fs' self'.
Proof.
  intros Hsame. unfold _list_projects, sorted.
  apply (StronglySorted_unique String.le);
    try (apply StronglySorted_merge_sort; apply _).
  rewrite !merge_sort_Permutation. apply flat_map_same, Hsame.
Qed.

(** X25.  The variants agree where both understand: when a request of the
    simplified variant and one of the standard variant parse to the same
    listing or fetch, not detailed, the standard variant returns the response
    of the simplified one and leaves the server in the same state. *)
Theorem variants_agree fs now self (request request' : string) :
  Simple.parse request = Win.parse request' ->
  (Win.parse request' = ListAll \/
   exists year project, Win.parse request' = FetchOne year project) ->
  Win.process_request joinpath fromtimestamp fs now self request'
  = (Ok (Simple.process_request joinpath fs now self request).1,
     (Simple.process_request joinpath fs now self request).2).
Proof.
  intros Hsame Hkind.
  rewrite simple_process_request_respond, win_process_request_respond, Hsame.
  destruct Hkind as [->|(year & project & ->)]; [reflexivity|].
  simpl. destruct (_read_project_file _ _ _ _) as [[content self'] ops].
  destruct (truthy content); reflexivity.
Qed.

(** X26.  A fetch that read the file from the disk is answered the same
    way, with the server unchanged, when it is asked again less than
    [cache_time] later, whatever the disk holds by then.  Both variants,
    not detailed. *)
Theorem repeated_fetch_same_answer fs fs' now now' self request year project
    content :
  let project_path := joinpath (joinpath (plan_dir self) year) project in
  no_fresh_entry now self project_path ->
  fs_file fs project_path = Regular content ->
  (now' - now < cache_time self)%Q ->
  (Simple.parse request = FetchOne year project ->
   let first := Simple.process_request joinpath fs now self request in
   Simple.process_request joinpath fs' now' first.2 request = first) /\
  (Win.parse request = FetchOne year project ->
   let first :=
     Win.process_request joinpath fromtimestamp fs now self request in
   Win.process_request joinpath fromtimestamp fs' now' first.2 request = first).
Proof.
  intros project_path Hstale Hfile Hfresh.
  pose proof (read_miss fs now self project_path Hstale) as Hfirst.
  rewrite Hfile in Hfirst.
  assert (Hagain :
    _read_project_file fs' now'
      (set_cache (<[project_path := (now, content)]> (cache self)) self)
      project_path
    = (Some content,
       set_cache (<[project_path := (now, content)]> (cache self)) self, [])).
  { apply (read_hit fs' now' _ project_path now content);
      [apply lookup_insert_eq|exact Hfresh]. }
  split; intros Hparse first; subst first.
  - rewrite !simple_process_request_respond, Hparse.
    cbn [Simple.respond]. fold project_path. rewrite Hfirst.
    destruct content; cbn [truthy fst snd];
      change (plan_dir (set_cache _ self)) with (plan_dir self);
      fold project_path; rewrite Hagain; reflexivity.
  - rewrite !win_process_request_respond, Hparse.
    cbn [Win.respond]. fold project_path. rewrite Hfirst.
    destruct content; cbn [truthy fst snd];
      change (plan_dir (set_cache _ self)) with (plan_dir self);
      fold project_path; rewrite Hagain; reflexivity.
Qed.

End Together.

(** ** A connection, served *)

Section Served.

Import Connection.

Variable joinpath : string -> string -> string.
Variable fromtimestamp : Q -> Exn + string.
Variable decode : list Byte.byte -> Result string.
Variable encode : string -> list Byte.byte.

Implicit Types (fs : FileSystem) (self : FingerServer) (now : Q).

Ltac newline_last :=
  solve [repeat first [apply endswith_refl | apply endswith_app_r]].

Lemma simple_response_newline fs now self (request : string) :
  endswith nl (Simple.process_request joinpath fs now self request).1 = true.
Proof.
  rewrite simple_process_request_respond.
  destruct (Simple.parse request) as [| |year project|year project|why];
    try (unfold Simple.respond, Simple.invalid_text; cbn [fst]; newline_last).
  rewrite simple_respond_fetch.
  destruct (truthy _); unfold found_text, not_found_text; newline_last.
Qed.

Lemma win_response_newline fs now self (request : string) :
  names_without_slash fs self = true ->
  exists response,
    (Win.process_request joinpath fromtimestamp fs now self request).1
    = Ok response /\
    endswith nl response = true.
Proof.
  intros Hnames. rewrite win_process_request_respond.
  destruct (Win.parse request) as [| |year project|year project|[|]].
  - eexists. split; [reflexivity|]. newline_last.
  - destruct (for_each_ok (Win.detail_line joinpath fromtimestamp fs self)
                (_list_projects fs self)) as [details Hdetails].
    { intros proj. apply detail_line_ok, Hnames. }
    unfold Win.respond. rewrite Hdetails.
    eexists. split; [reflexivity|]. newline_last.
  - rewrite win_respond_fetch. eexists. split; [reflexivity|].
    destruct (truthy _); unfold found_text, not_found_text; newline_last.
  - unfold Win.respond.
    destruct (_read_project_file _ _ _ _) as [[content self'] ops].
    destruct (truthy content) as [text|]; eexists;
      (split; [reflexivity|]); cbn [fst].
    + apply detailed_project_ends_nl.
    + newline_last.
  - eexists. split; [reflexivity|].
    unfold Win.invalid_format_text. newline_last.
  - eexists. split; [reflexivity|]. unfold Win.usage_text. newline_last.
Qed.

(** X27.  A connection whose request could be read and decoded gets exactly
    one [write], of the encoding of a response that ends with a newline:
    from the simplified variant always, from the standard variant when no
    name listed in a year directory holds a [/]. *)
Theorem readable_request_gets_one_response fs now (reader : StreamReader)
    (writer : StreamWriter) self (request : string) :
  request_of decode reader writer = Ok request ->
  (exists response,
     List.filter is_write
       (run decode encode (simple_handler joinpath fs now) reader writer self).2.2
     = [EvWrite (encode response)] /\
     endswith nl response = true) /\
  (names_without_slash fs self = true ->
   exists response,
     List.filter is_write
       (run decode encode (win_handler joinpath fromtimestamp fs now) reader
          writer self).2.2
     = [EvWrite (encode response)] /\
     endswith nl response = true).
Proof.
  intros Hrequest. split.
  - rewrite handler_written. unfold written. rewrite Hrequest.
    pose proof (simple_response_newline fs now self request) as Hnl.
    unfold simple_handler.
    destruct (Simple.process_request _ _ _ _ _) as [response self'].
    exists response. auto.
  - intros Hnames. rewrite handler_written. unfold written. rewrite Hrequest.
    destruct (win_response_newline fs now self request Hnames)
      as (response & Hresponse & Hnl).
    unfold win_handler. rewrite Hresponse. exists response. auto.
Qed.

End Served.

(** ** The further properties at the sample data *)

Module MoreInstances.

Import Sample SampleClient.

(** A first read at time 100 and two reads within the next 300 seconds,
    the file removed meanwhile. *)
Lemma one_disk_read_per_ttl_witness :
  (_read_project_file updated 100 server test_project).1.1
  = Some "Updated content" /\
  Forall (fun outcome : Call * option string * list FsOp =>
            call_path outcome.1.1 = test_project ->
            outcome.1.2 = Some "Updated content" /\ outcome.2 = [])
    (run_calls (_read_project_file updated 100 server test_project).1.2
       [call removed 200; call removed 399]).
Proof.
  apply (one_disk_read_per_ttl updated 100 server test_project
           "Updated content" [call removed 200; call removed 399]).
  - vm_compute. exact I.
  - reflexivity.
  - repeat constructor.
Defined.

(** A read of the test project keeps the entry it has and leaves the path
    [plans/2024/a.project] without one. *)
Lemma calls_keep_the_rest_witness :
  is_Some (cache (after_calls warm [call updated 500]) !! test_project) /\
  cache (after_calls warm [call updated 500]) !! "plans/2024/a.project"
  = cache warm !! "plans/2024/a.project".
Proof.
  destruct (calls_keep_the_rest warm [call updated 500])
    as (_ & _ & Hkeep & Hother).
  split.
  - apply Hkeep. exists (100%Q, "Test project content"). vm_compute. reflexivity.
  - apply Hother. repeat constructor. discriminate.
Defined.

(** The entry found after one read is the one that read stored. *)
Lemma cache_holds_what_was_read_witness :
  cache server !! test_project = Some (100%Q, "Updated content") \/
  read_by [call updated 100] test_project (100%Q, "Updated content").
Proof.
  apply (cache_holds_what_was_read server [call updated 100] test_project
           (100%Q, "Updated content")).
  vm_compute. reflexivity.
Defined.

(** The sample root has distinct names. *)
Lemma list_projects_no_duplicates_witness :
  NoDup (_list_projects removed server).
Proof.
  apply (list_projects_no_duplicates removed server). split.
  - apply (bool_decide_unpack _). vm_compute. exact I.
  - intros year entries Hin. simpl in Hin.
    destruct Hin as [Hin|[Hin|[Hin|[Hin|[]]]]]; try discriminate;
      injection Hin as <- <-; apply (bool_decide_unpack _); vm_compute;
      exact I.
Defined.

(** [2025/test.project] is listed, and fetched by both variants. *)
Lemma listed_project_can_be_fetched_witness :
  exists year name,
    "2025/test.project" = year +:+ "/" +:+ name /\ isdigit year = true /\
    (contains_char "/" name = false ->
     Simple.parse "2025/test.project" = FetchOne year name) /\
    (forall host,
       contains_char "@" name = false -> contains_char "@" host = false ->
       rstrip host = host ->
       Win.parse ("2025/test.project" +:+ "@" +:+ host) = FetchOne year name).
Proof.
  apply (listed_project_can_be_fetched removed server "2025/test.project").
  vm_compute. auto.
Defined.

(** [-l @host] is the detailed form of [@host]. *)
Lemma long_flag_only_adds_detail_witness :
  Win.parse "-l @host" = long_form (Win.parse "@host").
Proof.
  apply (long_flag_only_adds_detail "-l @host" "@host"); reflexivity.
Defined.

(** The simplified variant rejects [@hostname]. *)
Lemma simple_rejects_requests_without_slash_witness :
  Simple.process_request joinpath removed 0 server "@hostname"
  = (Simple.invalid_text, server).
Proof.
  apply (simple_rejects_requests_without_slash joinpath removed 0 server
           "@hostname").
  - discriminate.
  - reflexivity.
Defined.

(** The standard variant rejects the bare [2025/test.project]. *)
Lemma win_rejects_requests_without_at_witness :
  Win.process_request joinpath fromtimestamp updated 0 server
    "2025/test.project"
  = (Ok Win.usage_text, server).
Proof.
  apply (win_rejects_requests_without_at joinpath fromtimestamp updated 0
           server "2025/test.project").
  reflexivity.
Defined.

(** A fetch of the test project leaves the path [plans/2024/a.project]
    without an entry. *)
Lemma process_request_touches_one_entry_witness :
  cache (Simple.process_request joinpath updated 100 server
           "2025/test.project").2 !! "plans/2024/a.project"
  = cache server !! "plans/2024/a.project".
Proof.
  pose proof (process_request_touches_one_entry joinpath fromtimestamp updated
                100 server "2025/test.project") as H.
  cbv zeta in H. destruct H as [(_ & _ & Hsimple) _].
  change (Simple.parse "2025/test.project")
    with (FetchOne "2025" "test.project") in Hsimple.
  apply Hsimple. discriminate.
Defined.

(** The detailed fetch of the test project, and that of a project whose
    [stat] raises. *)
Lemma detailed_fetch_keeps_content_witness :
  (Win.process_request joinpath fromtimestamp updated 100 server
     "-l 2025/test.project@host").1
  = Ok (("Project: " +:+ "test.project" +:+ nl +:+
         "Location: " +:+ "2025" +:+ "/" +:+ "test.project" +:+ nl +:+
         "Size: " +:+ str_of_N 20 +:+ " bytes" +:+ nl +:+
         "Modified: " +:+ "2025-01-01 00:00:00" +:+ nl +:+
         nl +:+ "Content:" +:+ nl) +:+ "Updated content" +:+ nl) /\
  (Win.process_request joinpath fromtimestamp unstattable 100 server
     "-l 2025/test.project@host").1
  = Ok ("Error reading project metadata: " +:+ "[Errno 13] Permission denied"
        +:+ nl +:+ nl +:+ "Updated content" +:+ nl).
Proof.
  split.
  - pose proof (detailed_fetch_keeps_content joinpath fromtimestamp updated 100
                  server "-l 2025/test.project@host" "2025" "test.project"
                  "Updated content") as H.
    cbv zeta in H.
    apply (proj1 (H eq_refl eq_refl) {| st_size := 20; st_mtime := 0 |}
             "2025-01-01 00:00:00"); reflexivity.
  - pose proof (detailed_fetch_keeps_content joinpath fromtimestamp unstattable
                  100 server "-l 2025/test.project@host" "2025" "test.project"
                  "Updated content") as H.
    cbv zeta in H.
    apply (proj1 (proj2 (H eq_refl eq_refl))). left. reflexivity.
Defined.

(** The test project, emptied. *)
Lemma empty_file_is_answered_not_found_witness :
  (Simple.process_request joinpath (disk (Some "")) 100 server
     "2025/test.project").1
  = not_found_text "2025" "test.project" /\
  cache (Simple.process_request joinpath (disk (Some "")) 100 server
           "2025/test.project").2 !! test_project
  = Some (100%Q, "").
Proof.
  pose proof (empty_file_is_answered_not_found joinpath fromtimestamp
                (disk (Some "")) 100 server "2025/test.project" "2025"
                "test.project") as H.
  cbv zeta in H.
  apply H.
  - vm_compute. exact I.
  - reflexivity.
  - reflexivity.
Defined.

(** The detailed listing of the sample root has three lines. *)
Lemma detailed_listing_lines_witness :
  exists lines,
    Win.process_request joinpath fromtimestamp updated 0 server "-l @host"
    = (Ok (("Project listing (detailed):" +:+ nl) +:+ join nl lines +:+ nl),
       server) /\
    Forall2 (fun proj line => startswith (ljust 30 proj) line = true)
      (_list_projects updated server) lines.
Proof.
  apply (detailed_listing_lines joinpath fromtimestamp updated 0 server
           "-l @host").
  - vm_compute. reflexivity.
  - reflexivity.
Defined.

(** The queries of [test_query_finger_server_empty_query] and
    [test_query_finger_server_with_long_format], on the standard variant. *)
Lemma client_lists_on_standard_server_witness :
  Win.parse (Client.wire_query "localhost" "" true) = ListAllDetailed.
Proof.
  apply (client_lists_on_standard_server "localhost" true); reflexivity.
Defined.

Lemma client_fetches_on_standard_server_witness :
  Win.parse (Client.wire_query "localhost" ("2025" +:+ "/" +:+ "test.project")
               true)
  = FetchOneDetailed "2025" "test.project".
Proof.
  apply (client_fetches_on_standard_server "localhost" "2025" "test.project"
           true); reflexivity.
Defined.

(** The same queries on the simplified variant. *)
Lemma client_on_simplified_server_witness :
  Simple.parse (Client.wire_query "localhost" "" false) = Invalid BadSelector /\
  Simple.parse (Client.wire_query "localhost"
                  ("2025" +:+ "/" +:+ "test.project") false)
  = FetchOne "2025" ("test.project" +:+ "@" +:+ "localhost").
Proof.
  destruct (client_on_simplified_server "localhost" eq_refl eq_refl)
    as [Hlist Hfetch].
  split.
  - apply Hlist. reflexivity.
  - apply (Hfetch "2025" "test.project"); reflexivity.
Defined.

(** The exchange of [test_query_finger_server_success]. *)
Lemma query_returns_what_was_received_witness :
  (Client.query_finger_server decode encode "localhost" "2025/test.project"
     1079 false
     (socket [Client.Returns (encode "Test response"); Client.Returns []])).1
  = Some "Test response".
Proof.
  pose proof (query_returns_what_was_received decode encode "localhost"
                "2025/test.project" 1079 false
                (socket [Client.Returns (encode "Test response");
                         Client.Returns []])
                [encode "Test response"] []) as H.
  cbv zeta in H. apply H; try reflexivity.
  repeat constructor. discriminate.
Defined.

(** The refused connection of [test_query_finger_server_connection_refused]
    and a server that closes without a word. *)
Lemma main_exit_code_witness :
  ((Client.main decode encode args refused).1.1 = 1%Z /\
   (Client.main decode encode args refused).1.2 = []) /\
  ((Client.main decode encode args (socket [Client.Returns []])).1.1 = 1%Z /\
   (Client.main decode encode args (socket [Client.Returns []])).1.2 = [] /\
   Client.count Client.is_error
     (Client.main decode encode args (socket [Client.Returns []])).2 = 0%nat).
Proof.
  split.
  - apply (proj1 (main_exit_code decode encode args refused)).
    vm_compute. repeat constructor.
  - apply (proj2 (main_exit_code decode encode args
                    (socket [Client.Returns []]))); try reflexivity.
    exists []. reflexivity.
Defined.

(** The sample root in two orders of enumeration. *)
Lemma listing_ignores_enumeration_order_witness :
  _list_projects removed server = _list_projects shuffled server.
Proof.
  apply (listing_ignores_enumeration_order removed shuffled server server).
  exists [EntDir "2025" ["notes.txt"; "test.project"]; EntFile "README";
          EntDir "drafts" ["x.project"]; EntDir "2024" ["a.project"; "b.project"]].
  split.
  - repeat constructor.
  - apply perm_swap.
Defined.

(** [2025/test.project] and [2025/test.project@host]. *)
Lemma variants_agree_witness :
  Win.process_request joinpath fromtimestamp updated 100 server
    "2025/test.project@host"
  = (Ok (Simple.process_request joinpath updated 100 server
           "2025/test.project").1,
     (Simple.process_request joinpath updated 100 server
        "2025/test.project").2).
Proof.
  apply (variants_agree joinpath fromtimestamp updated 100 server
           "2025/test.project" "2025/test.project@host").
  - reflexivity.
  - right. exists "2025", "test.project". reflexivity.
Defined.

(** The fetch at time 100, asked again at time 200, the file removed. *)
Lemma repeated_fetch_same_answer_witness :
  Simple.process_request joinpath removed 200
    (Simple.process_request joinpath updated 100 server "2025/test.project").2
    "2025/test.project"
  = Simple.process_request joinpath updated 100 server "2025/test.project".
Proof.
  pose proof (repeated_fetch_same_answer joinpath fromtimestamp updated removed
                100 200 server "2025/test.project" "2025" "test.project"
                "Updated content") as H.
  cbv zeta in H. apply H.
  - vm_compute. exact I.
  - reflexivity.
  - reflexivity.
  - reflexivity.
Defined.

(** The connection of [test_handle_client]. *)
Lemma readable_request_gets_one_response_witness :
  exists response,
    List.filter Connection.is_write
      (Connection.run decode encode (simple_handler joinpath updated 100)
         (reader "2025/test.project") writer server).2.2
    = [Connection.EvWrite (encode response)] /\
    endswith nl response = true.
Proof.
  apply (readable_request_gets_one_response joinpath fromtimestamp decode
           encode updated 100 (reader "2025/test.project") writer server
           "2025/test.project").
  reflexivity.
Defined.

End MoreInstances.
